(** * django-fsm: transition registry, guarded dispatch and introspection

    A shallow embedding of [django_fsm/db/fields/fsmfield.py] (Python 2):
    the per-method registry [FSMMeta], the decorator [transition] with its
    call-time wrapper [_change_state], the query [can_proceed] and the
    introspection pass [accessible_states].

    Python objects are mutated in place; here the one model instance a call
    works on lives in a [World] that every operation threads through, and a
    raised exception keeps the world as it was when it was raised. *)

From stdpp Require Import gmap strings list fin_maps.

Local Open Scope string_scope.
Local Open Scope list_scope.

(** ** Python values, exceptions, results *)

(** The values that cross the boundary of the modelled code. *)
Inductive PyVal : Type :=
| PyNone
| PyBool (b : bool)
| PyStr (s : string)
| PyInt (z : Z).

(** Python truth value testing, as used by [if not ...], [and]/[or], [all]. *)
Definition truthy (v : PyVal) : bool :=
  match v with
  | PyNone => false
  | PyBool b => b
  | PyStr s => negb (String.eqb s "")
  | PyInt z => negb (Z.eqb z 0)
  end.

(** The exception classes the module raises or lets through. [Exception]
    stands for an exception of any other class raised by user code. *)
Inductive exn : Type :=
| TypeError (msg : string)
| NotImplementedError (msg : string)
| ValueError (msg : string)
| KeyError (key : string)
| AttributeError (attr : string)
| IndexError (msg : string)
| UnboundLocalError (var : string)
| Exception (msg : string).

Inductive result (A : Type) : Type :=
| Return (a : A)
| Raise (e : exn).
Arguments Return {A} a.
Arguments Raise {A} e.

(** ** The model instance *)

(** [isinstance(field, FSMField) or isinstance(field, FSMKeyField)] only looks
    at the class of a declared field. *)
Inductive FieldKind : Type := FSMField | FSMKeyField | OtherField.

Record Field : Type := { name : string; kind : FieldKind }.

(** A model instance: the declared fields ([instance._meta.fields]) and the
    attribute store read by [getattr] and written by [setattr]. States are
    string tokens. *)
Record Instance : Type := {
  _meta_fields : list Field;
  attrs : gmap string string
}.

(** What the trace records: a guard was called, a wrapped function was called,
    the persistence hook was called. The trace is ghost state: no modelled code
    reads it. *)
Inductive Event : Type :=
| EvGuard (guard : string)
| EvCall (func : string)
| EvSave.

Record World : Type := { inst : Instance; log : list Event }.

Definition log_event (e : Event) (w : World) : World :=
  {| inst := inst w; log := log w ++ [e] |}.

Definition log_events (es : list Event) (w : World) : World :=
  {| inst := inst w; log := log w ++ es |}.

(** ** State and exceptions *)

Definition M (A : Type) : Type := World -> World * result A.

Definition ret {A} (a : A) : M A := fun w => (w, Return a).
Definition raise {A} (e : exn) : M A := fun w => (w, Raise e).
Definition bind {A B} (c : M A) (k : A -> M B) : M B :=
  fun w => match c w with
           | (w', Return a) => k a w'
           | (w', Raise e) => (w', Raise e)
           end.
Definition lift {A} (r : result A) : M A := fun w => (w, r).
Definition read_instance : M Instance := fun w => (w, Return (inst w)).
Definition write_instance (i : Instance) : M unit :=
  fun w => ({| inst := i; log := log w |}, Return tt).

(** [try: c  except TypeError: h] *)
Definition try_except_TypeError {A} (c : M A) (h : M A) : M A :=
  fun w => match c w with
           | (w', Raise (TypeError _)) => h w'
           | r => r
           end.

Notation "'let*' x ':=' c 'in' k" := (bind c (fun x => k))
  (at level 10, x name, c at level 100, k at level 200).

(** ** Dictionaries, attributes *)

(** [d.has_key(k)] *)
Definition has_key {V} (d : gmap string V) (k : string) : bool :=
  match d !! k with Some _ => true | None => false end.

(** [d[k]]: both registries are [defaultdict()] without a default factory,
    which raises [KeyError] on a missing key like a plain dict. *)
Definition getitem {V} (d : gmap string V) (k : string) : M V :=
  match d !! k with Some v => ret v | None => raise (KeyError k) end.

(** [getattr(instance, field_name)] *)
Definition getattr (field_name : string) : M string :=
  let* instance := read_instance in
  match attrs instance !! field_name with
  | Some v => ret v
  | None => raise (AttributeError field_name)
  end.

(** [setattr(instance, field_name, value)] *)
Definition setattr (field_name : string) (value : string) : M unit :=
  let* instance := read_instance in
  write_instance {| _meta_fields := _meta_fields instance;
                    attrs := <[field_name := value]> (attrs instance) |}.

(** ** Call arguments, guards, function objects *)

(** [*args, **kwargs] *)
Record Args : Type := { args : list PyVal; kwargs : list (string * PyVal) }.

(** A guard predicate: a function of the instance and the call arguments that
    answers with a value (tested for truth) or raises. The embedding takes
    guards to be observers: they read the instance and do not write to it.
    The calls are recorded in the trace by [call_guard]. *)
Record Guard : Type := {
  guard_name : string;
  guard_fn : Instance -> Args -> result PyVal
}.

Definition call_guard (condition : Guard) (a : Args) : M PyVal :=
  fun w => (log_event (EvGuard (guard_name condition)) w,
            guard_fn condition (inst w) a).

(** [class FSMMeta]: [transitions] maps a source state (or ['*']) to its
    target, [conditions] maps a target to its guard list. *)
Record FSMMeta : Type := {
  transitions : gmap string string;
  conditions : gmap string (list Guard)
}.

(** [FSMMeta.__init__] *)
Definition FSMMeta_init : FSMMeta := {| transitions := ∅; conditions := ∅ |}.

(** A function object: its name, its [_django_fsm] attribute when it has one,
    and its code. [_change_state] reads [func._django_fsm] when it is called,
    and [wraps] copies the attribute dictionary, so a function and every
    wrapper stacked on it share one [FSMMeta] object; the code therefore
    receives the content of that object at call time as an argument (code that
    is not a wrapper ignores it). *)
Record FuncObj : Type := {
  func_name : string;
  _django_fsm : option FSMMeta;
  func_code : FSMMeta -> Args -> M PyVal
}.

(** [func(instance, *args, **kwargs)] *)
Definition call (func : FuncObj) (meta : FSMMeta) (a : Args) : M PyVal :=
  fun w => func_code func meta a (log_event (EvCall (func_name func)) w).

(** ** class FSMMeta *)

Definition is_fsm_field (field : Field) : bool :=
  match kind field with
  | FSMField | FSMKeyField => true
  | OtherField => false
  end.

(** [FSMMeta._get_state_field] *)
Definition _get_state_field (instance : Instance) : result Field :=
  let fields := List.filter is_fsm_field (_meta_fields instance) in
  let found := length fields in
  if Nat.eqb found 0 then Raise (TypeError "No FSMField found in model")
  else if Nat.ltb 1 found then
    Raise (TypeError "More than one FSMField found in model")
  else match fields with
       | field :: _ => Return field
       | [] => Raise (IndexError "list index out of range")
       end.

(** [FSMMeta.current_state] *)
Definition current_state : M string :=
  let* instance := read_instance in
  let* field := lift (_get_state_field instance) in
  getattr (name field).

(** [FSMMeta.has_transition] *)
Definition has_transition (self : FSMMeta) : M bool :=
  let* current := current_state in
  ret (has_key (transitions self) current || has_key (transitions self) "*").

(** [map(lambda f: f(instance, *args, **kwargs), conds)]: Python 2's [map]
    builds the whole list, calling every guard in order, before [all] looks at
    any result; the first guard that raises ends it. *)
Fixpoint map_guards (conds : list Guard) (a : Args) : M (list PyVal) :=
  match conds with
  | [] => ret []
  | f :: rest =>
      let* v := call_guard f a in
      let* vs := map_guards rest a in
      ret (v :: vs)
  end.

(** [FSMMeta.conditions_met] *)
Definition conditions_met (self : FSMMeta) (a : Args) : M bool :=
  let* current_state := current_state in
  let* next :=
    (if has_key (transitions self) current_state then
       let* t := getitem (transitions self) current_state in
       if truthy (PyStr t) then ret t else getitem (transitions self) "*"
     else getitem (transitions self) "*") in
  try_except_TypeError
    (let* conds := getitem (conditions self) next in
     let* vs := map_guards conds a in
     ret (forallb truthy vs))
    (ret false).

(** [FSMMeta.to_next_state] *)
Definition to_next_state (self : FSMMeta) : M unit :=
  let* instance := read_instance in
  let* field := lift (_get_state_field instance) in
  let field_name := name field in
  let* curr_state := getattr field_name in
  let* next_state :=
    match transitions self !! curr_state with
    | Some t => ret t
    | None => getitem (transitions self) "*"
    end in
  setattr field_name next_state.

(** ** The decorator *)

(** The [source] argument of [transition]: a scalar, or a list or tuple. *)
Inductive Source : Type :=
| Scalar (state : string)
| Sequence (states : list string).

(** [func._django_fsm.transitions[state] = target] *)
Definition set_transition (state target : string) (meta : FSMMeta) : FSMMeta :=
  {| transitions := <[state := target]> (transitions meta);
     conditions := conditions meta |}.

(** [func._django_fsm.conditions[target] = conditions] *)
Definition set_conditions (target : string) (conds : list Guard)
    (meta : FSMMeta) : FSMMeta :=
  {| transitions := transitions meta;
     conditions := <[target := conds]> (conditions meta) |}.

(** The registration part of [inner_transition] (lines 90-99). *)
Definition register (source : Source) (target : string) (conds : list Guard)
    (fsm : option FSMMeta) : FSMMeta :=
  let meta := match fsm with Some m => m | None => FSMMeta_init end in
  let meta :=
    match source with
    | Sequence states =>
        fold_left (fun m state => set_transition state target m) states meta
    | Scalar state => set_transition state target meta
    end in
  set_conditions target conds meta.

(** [for condition in conditions: if not condition(...): return False].
    [Some v] is the early [return v]; [None] means the loop ran to its end. *)
Fixpoint for_conditions (conds : list Guard) (a : Args) : M (option PyVal) :=
  match conds with
  | [] => ret None
  | condition :: rest =>
      let* v := call_guard condition a in
      if negb (truthy v) then ret (Some (PyBool false))
      else for_conditions rest a
  end.

Definition illegal_message (state method : string) : string :=
  "Can't switch from state '" +:+ state +:+ "' using method '" +:+ method +:+ "'".

Section Model.

(** [instance.save()]: the persistence hook of the model class, owned by the
    persistence layer. *)
Variable instance_save : M PyVal.

Definition call_save : M PyVal :=
  fun w => instance_save (log_event EvSave w).

(** [_change_state], the wrapper [inner_transition] returns. [func],
    [conds] and [save] are the variables it closes over; [meta] is the
    content of [func._django_fsm] at the time of the call. *)
Definition _change_state (func : FuncObj) (conds : list Guard) (save : bool)
    (meta : FSMMeta) (a : Args) : M PyVal :=
  let* legal := has_transition meta in
  if negb legal then
    let* current := current_state in
    raise (NotImplementedError (illegal_message current (func_name func)))
  else
    let* early := for_conditions conds a in
    match early with
    | Some v => ret v
    | None =>
        let* _ := call func meta a in
        let* _ := to_next_state meta in
        let* _ := (if save then call_save else ret PyNone) in
        ret PyNone
    end.

(** [inner_transition]: registers the sources and the guards on the
    function's [FSMMeta] (created when absent) and returns the wrapper, which
    [wraps] gives the function's name and attributes. *)
Definition inner_transition (source : Source) (target : string) (save : bool)
    (conds : list Guard) (func : FuncObj) : FuncObj :=
  {| func_name := func_name func;
     _django_fsm := Some (register source target conds (_django_fsm func));
     func_code := _change_state func conds save |}.

(** [transition(source, target, save, conditions)]; [target] is [None] when
    the argument is left out. *)
Definition transition (source : Source) (target : option string)
    (save : bool) (conds : list Guard) : result (FuncObj -> FuncObj) :=
  match target with
  | Some t =>
      if negb (truthy (PyStr t)) then
        Raise (ValueError "Result state not specified")
      else Return (inner_transition source t save conds)
  | None => Raise (ValueError "Result state not specified")
  end.

End Model.

(** Calling a method of the model class on the instance, [instance.method(...)]. *)
Definition invoke (method : FuncObj) (a : Args) : M PyVal :=
  func_code method (default FSMMeta_init (_django_fsm method)) a.

(** ** Queries *)

(** [can_proceed(bound_method, *args, **kwargs)]; [im_self] is the instance of
    the world. *)
Definition can_proceed (bound_method : FuncObj) (a : Args) : M bool :=
  match _django_fsm bound_method with
  | None =>
      raise (NotImplementedError
               (func_name bound_method +:+ " method is not transition"))
  | Some meta =>
      let* legal := has_transition meta in
      if legal then conditions_met meta a else ret false
  end.

(** An attribute of the instance as [getattr] returns it. *)
Inductive AttrObj : Type :=
| Data (v : PyVal)
| Callable (f : FuncObj).

(** What [accessible_states] sees of the class: the names [dir(instance)]
    lists, each with the object [getattr] gives ([None] when [getattr] raises
    [AttributeError]), and the cached index [_state_actions] once built. *)
Record Class : Type := {
  dir : list (string * option AttrObj);
  _state_actions : option (gmap string (list (FuncObj * string)))
}.

(** [state_actions[source].append(x)] on a [defaultdict(list)] *)
Definition append_action (source : string) (x : FuncObj * string)
    (state_actions : gmap string (list (FuncObj * string)))
    : gmap string (list (FuncObj * string)) :=
  <[source := default [] (state_actions !! source) ++ [x]]> state_actions.

(** The loop over [dir(instance)] (lines 141-151). [attr_obj] is the loop's
    local variable: when [getattr] raises [AttributeError] it keeps the object
    of the previous name, and is unbound if there was none. *)
Fixpoint build_state_actions (names : list (string * option AttrObj))
    (attr_obj : option AttrObj)
    (state_actions : gmap string (list (FuncObj * string)))
    : result (gmap string (list (FuncObj * string))) :=
  match names with
  | [] => Return state_actions
  | (_, got) :: rest =>
      let attr_obj := match got with Some o => Some o | None => attr_obj end in
      match attr_obj with
      | None => Raise (UnboundLocalError "attr_obj")
      | Some (Data _) => build_state_actions rest attr_obj state_actions
      | Some (Callable f) =>
          match _django_fsm f with
          | None => build_state_actions rest attr_obj state_actions
          | Some meta =>
              build_state_actions rest attr_obj
                (fold_left
                   (fun sa st => append_action (fst st) (f, snd st) sa)
                   (map_to_list (transitions meta)) state_actions)
          end
      end
  end.

(** The loop over the candidates of the current state (lines 157-160). *)
Fixpoint filter_actions (candidates : list (FuncObj * string)) (a : Args)
    : M (list (FuncObj * string)) :=
  match candidates with
  | [] => ret []
  | (action, target) :: rest =>
      let* met :=
        match _django_fsm action with
        | Some meta => conditions_met meta a
        | None => raise (AttributeError "_django_fsm")
        end in
      let* states := filter_actions rest a in
      ret (if met then (action, target) :: states else states)
  end.

(** [accessible_states(instance, *args, **kwargs)]. The class is threaded
    through next to the world because the index is cached on it; reading a
    missing key of the [defaultdict(list)] index files an empty list there.
    The pairs hold the function objects of the methods; the instance each
    method is bound to is added by [accessible_states_bound] below. *)
Definition accessible_states (cls : Class) (a : Args) (w : World)
    : Class * World * result (list (FuncObj * string)) :=
  match
    match _state_actions cls with
    | None => build_state_actions (dir cls) None ∅
    | Some state_actions => Return state_actions
    end
  with
  | Raise e => (cls, w, Raise e)
  | Return state_actions =>
      match current_state w with
      | (w1, Raise e) =>
          ({| dir := dir cls; _state_actions := Some state_actions |}, w1,
           Raise e)
      | (w1, Return current) =>
          let candidates := default [] (state_actions !! current) in
          let '(w2, r) := filter_actions candidates a w1 in
          ({| dir := dir cls;
              _state_actions := Some (<[current := candidates]> state_actions) |},
           w2, r)
      end
  end.




(** ** Observations used in the statements *)

(** The state a caller reads off the instance. *)
Definition state_of (w : World) : result string := snd (current_state w).

(** The guard answers, without raising, with a true value. *)
Definition guard_passes (instance : Instance) (a : Args) (g : Guard) : bool :=
  match guard_fn g instance a with
  | Return v => truthy v
  | Raise _ => false
  end.

(** The guard answers without raising. *)
Definition guard_returns (instance : Instance) (a : Args) (g : Guard) : bool :=
  match guard_fn g instance a with
  | Return _ => true
  | Raise _ => false
  end.

Definition guard_event (g : Guard) : Event := EvGuard (guard_name g).

(** The target the registry holds for a state: the exact entry when there is
    one, the wildcard entry otherwise. *)
Definition resolve (meta : FSMMeta) (state : string) : option string :=
  match transitions meta !! state with
  | Some t => Some t
  | None => transitions meta !! "*"
  end.

(** The world after [n] calls of [c] in a row, whatever each call returns or
    raises. *)
Definition repeat_calls {A} (n : nat) (c : M A) (w : World) : World :=
  Nat.iter n (fun w' => fst (c w')) w.

(** What line 61 of [conditions_met] computes from the current state: the
    exact entry when it is there and a true value, the wildcard entry
    otherwise, [KeyError] without one. *)
Definition next_target (meta : FSMMeta) (state : string) : result string :=
  let wildcard :=
    match transitions meta !! "*" with
    | Some t => Return t
    | None => Raise (KeyError "*")
    end in
  match transitions meta !! state with
  | Some t => if truthy (PyStr t) then Return t else wildcard
  | None => wildcard
  end.

(** One decorator line above a method: the arguments of a [transition(...)]
    call. *)
Record Decoration : Type := {
  d_source : Source;
  d_target : option string;
  d_save : bool;
  d_conditions : list Guard
}.

(** A stack of decorator lines applied to a function, the line nearest to the
    [def] first. A line whose [transition(...)] call raises ends the class
    definition with that error. *)
Fixpoint decorate (instance_save : M PyVal) (lines : list Decoration)
    (func : FuncObj) : result FuncObj :=
  match lines with
  | [] => Return func
  | d :: rest =>
      match transition instance_save (d_source d) (d_target d) (d_save d)
              (d_conditions d) with
      | Return decorator => decorate instance_save rest (decorator func)
      | Raise e => Raise e
      end
  end.

(** What the decorator keeps true of a registry: every registered target is a
    true value and has a guard list filed under it. *)
Definition registry_ok (meta : FSMMeta) : Prop :=
  forall s t, transitions meta !! s = Some t ->
              truthy (PyStr t) = true /\ is_Some (conditions meta !! t).

(** The line names a target that is a true value, as [transition] demands. *)
Definition has_target (d : Decoration) : bool :=
  match d_target d with
  | Some t => truthy (PyStr t)
  | None => false
  end.

(** The sources a [transition] call names. *)
Definition sources_of (source : Source) : list string :=
  match source with
  | Scalar state => [state]
  | Sequence states => states
  end.

(** ** The models of tests.py *)

Module Tests.

Definition no_args : Args := {| args := []; kwargs := [] |}.
Definition positional (l : list PyVal) : Args := {| args := l; kwargs := [] |}.

(** [models.Model.save] against the test database. *)
Definition save : M PyVal := ret PyNone.

(** [def name(self): pass] *)
Definition def_pass (fname : string) : FuncObj :=
  {| func_name := fname; _django_fsm := None;
     func_code := fun _ a =>
       match args a, kwargs a with
       | [], [] => ret PyNone
       | _, _ => raise (TypeError (fname +:+ "() takes exactly 1 argument"))
       end |}.

(** [def name(self, *args, **kwargs): pass] *)
Definition def_pass_any (fname : string) : FuncObj :=
  {| func_name := fname; _django_fsm := None;
     func_code := fun _ _ => ret PyNone |}.

Definition new_instance (fields : list Field) (state_field : string) : World :=
  {| inst := {| _meta_fields := fields; attrs := {[ state_field := "new" ]} |};
     log := [] |}.

(** The state of the instance after running [c], read through
    [current_state]. *)
Definition state_after {A} (c : M A) (w : World) : result string :=
  snd (current_state (fst (c w))).

Definition names (l : list (FuncObj * string)) : list (string * string) :=
  map (fun p => (func_name (fst p), snd p)) l.

(** The content of the registry attached to a method. *)
Definition meta_of (method : FuncObj) : FSMMeta :=
  default FSMMeta_init (_django_fsm method).

(** Two statements in a row. *)
Definition then_ {A B} (c : M A) (k : M B) : M B := let* _ := c in k.

Module BlogPost.
Definition fields : list Field :=
  [ {| name := "id"; kind := OtherField |};
    {| name := "state"; kind := FSMField |} ].
Definition model : World := new_instance fields "state".

Definition publish : FuncObj :=
  inner_transition save (Scalar "new") "published" false []
    (def_pass "publish").
Definition hide : FuncObj :=
  inner_transition save (Scalar "published") "hidden" false []
    (def_pass "hide").
Definition remove_body : FuncObj :=
  {| func_name := "remove"; _django_fsm := None;
     func_code := fun _ _ =>
       raise (Exception "No rights to delete BlogPost object") |}.
Definition remove : FuncObj :=
  inner_transition save (Scalar "new") "removed" false [] remove_body.
Definition steal : FuncObj :=
  inner_transition save (Sequence ["published"; "hidden"]) "stolen" false []
    (def_pass "steal").
Definition moderate : FuncObj :=
  inner_transition save (Scalar "*") "moderated" false []
    (def_pass "moderate").

(** The names [dir] lists, in its alphabetical order, for the members
    that matter here; the manager [objects] is not accessible through an
    instance. *)
Definition cls : Class :=
  {| dir := [ ("hide", Some (Callable hide));
              ("id", Some (Data PyNone));
              ("moderate", Some (Callable moderate));
              ("objects", None);
              ("pk", Some (Data PyNone));
              ("publish", Some (Callable publish));
              ("remove", Some (Callable remove));
              ("save", Some (Callable (def_pass_any "save")));
              ("state", Some (Data (PyStr "new")));
              ("steal", Some (Callable steal)) ];
     _state_actions := None |}.
End BlogPost.

(** A model like [BlogPost] with two more methods, whose bodies do what the
    bodies of tests.py never do. *)
Module Probe.
Definition fields : list Field := BlogPost.fields.
Definition model : World := new_instance fields "state".

(** [def scribble(self): self.state = 'scribbled'; raise Exception('boom')],
    a body that assigns the state field itself before it fails. *)
Definition scribble_body : FuncObj :=
  {| func_name := "scribble"; _django_fsm := None;
     func_code := fun _ _ =>
       let* _ := setattr "state" "scribbled" in
       raise (Exception "boom") |}.
Definition scribble : FuncObj :=
  inner_transition save (Scalar "new") "published" false [] scribble_body.


(** Two decorators stacked on one method:
    [@transition(source='*', target='moderated')] over
    [@transition(source='new', target='reviewed')]. The registry of
    [review] holds an exact entry and a wildcard entry. *)
Definition review_inner : FuncObj :=
  inner_transition save (Scalar "new") "reviewed" false []
    (def_pass "review").
Definition review : FuncObj :=
  inner_transition save (Scalar "*") "moderated" false [] review_inner.

(** [def wander(self): self.state = 'lost'], a body that leaves the instance
    in a state the registry of the method does not know. *)
Definition wander_body : FuncObj :=
  {| func_name := "wander"; _django_fsm := None;
     func_code := fun _ _ =>
       let* _ := setattr "state" "lost" in ret PyNone |}.
Definition wander : FuncObj :=
  inner_transition save (Scalar "new") "published" false [] wander_body.

(** A persistence hook that fails. *)
Definition failing_save : M PyVal := raise (Exception "database is down").

(** [@transition(source='new', target='archived', save=True)] on a method
    that does nothing. *)
Definition archive : FuncObj :=
  inner_transition save (Scalar "new") "archived" true [] (def_pass "archive").

(** A method with two sources whose body assigns the state field:
    [@transition(source=['new', 'published'], target='archived')] on
    [def drift(self): self.state = 'lost']. *)
Definition drift_body : FuncObj :=
  {| func_name := "drift"; _django_fsm := None;
     func_code := fun _ _ =>
       let* _ := setattr "state" "lost" in ret PyNone |}.
Definition drift : FuncObj :=
  inner_transition save (Sequence ["new"; "published"]) "archived" false []
    drift_body.

(** A decorator with two sources stacked on another decorator:
    [@transition(source=['new', 'published'], target='checked')] over
    [@transition(source='checked', target='filed')]. *)
Definition chain_inner : FuncObj :=
  inner_transition save (Scalar "checked") "filed" false [] (def_pass "chain").
Definition chain : FuncObj :=
  inner_transition save (Sequence ["new"; "published"]) "checked" false []
    chain_inner.

(** The two decorator lines of [review], the one nearest to the [def] first,
    and a stack whose second line leaves the target out. *)
Definition review_lines : list Decoration :=
  [ {| d_source := Scalar "new"; d_target := Some "reviewed";
       d_save := false; d_conditions := [] |};
    {| d_source := Scalar "*"; d_target := Some "moderated";
       d_save := false; d_conditions := [] |} ].
Definition broken_lines : list Decoration :=
  [ {| d_source := Scalar "new"; d_target := Some "reviewed";
       d_save := false; d_conditions := [] |};
    {| d_source := Scalar "*"; d_target := None;
       d_save := false; d_conditions := [] |} ].
End Probe.

Module InvalidModel.
Definition fields : list Field :=
  [ {| name := "id"; kind := OtherField |};
    {| name := "state"; kind := FSMField |};
    {| name := "action"; kind := FSMField |} ].
Definition model : World :=
  {| inst := {| _meta_fields := fields;
                attrs := <[ "action" := "no" ]> {[ "state" := "new" ]} |};
     log := [] |}.
Definition validate : FuncObj :=
  inner_transition save (Scalar "new") "no" false [] (def_pass "validate").
End InvalidModel.

(** [BlogPostStatus] declares no state field, and a transition. *)
Module BlogPostStatus.
Definition fields : list Field :=
  [ {| name := "id"; kind := OtherField |};
    {| name := "name"; kind := OtherField |} ].
Definition model : World :=
  {| inst := {| _meta_fields := fields; attrs := ∅ |}; log := [] |}.
Definition publish : FuncObj :=
  inner_transition save (Scalar "new") "published" false []
    (def_pass "publish").
End BlogPostStatus.

Module Document.
Definition fields : list Field :=
  [ {| name := "id"; kind := OtherField |};
    {| name := "status"; kind := FSMField |} ].
Definition model : World := new_instance fields "status".
Definition publish : FuncObj :=
  inner_transition save (Scalar "new") "published" false []
    (def_pass "publish").
End Document.

Module BlogPostWithConditions.
Definition fields : list Field := BlogPost.fields.
Definition model : World := new_instance fields "state".

Definition PyVal_eqb (x y : PyVal) : bool :=
  match x, y with
  | PyNone, PyNone => true
  | PyBool a, PyBool b => Bool.eqb a b
  | PyStr a, PyStr b => String.eqb a b
  | PyInt a, PyInt b => Z.eqb a b
  | _, _ => false
  end.

(** [def condition_func(instance, *args, **kwargs): return True] *)
Definition condition_func : Guard :=
  {| guard_name := "condition_func";
     guard_fn := fun _ _ => Return (PyBool true) |}.
(** [def condition_func2(instance): return True] *)
Definition condition_func2 : Guard :=
  {| guard_name := "condition_func2";
     guard_fn := fun _ a =>
       match args a, kwargs a with
       | [], [] => Return (PyBool true)
       | _, _ =>
           Raise (TypeError "condition_func2() takes exactly 1 argument")
       end |}.
Definition model_condition : Guard :=
  {| guard_name := "model_condition";
     guard_fn := fun _ _ => Return (PyBool true) |}.
Definition unmet_condition : Guard :=
  {| guard_name := "unmet_condition";
     guard_fn := fun _ _ => Return (PyBool false) |}.
(** [def variable_condition(self, user, moderator='bar')], for the ways
    the tests pass its arguments. *)
Definition variable_condition : Guard :=
  {| guard_name := "variable_condition";
     guard_fn := fun _ a =>
       match args a, kwargs a with
       | [user], [] => Return (PyBool (PyVal_eqb user (PyStr "bar")))
       | [user; moderator], [] => Return (PyBool (PyVal_eqb user moderator))
       | [user], [("moderator", moderator)] =>
           Return (PyBool (PyVal_eqb user moderator))
       | _, _ =>
           Raise (TypeError "variable_condition() takes at least 2 arguments")
       end |}.

Definition publish : FuncObj :=
  inner_transition save (Scalar "new") "published" false
    [condition_func; model_condition] (def_pass "publish").
Definition destroy : FuncObj :=
  inner_transition save (Scalar "published") "destroyed" false
    [condition_func; unmet_condition] (def_pass "destroy").
Definition approve : FuncObj :=
  inner_transition save (Scalar "published") "approved" false
    [condition_func; variable_condition] (def_pass_any "approve").
Definition bless : FuncObj :=
  inner_transition save (Scalar "published") "holy" false
    [variable_condition] (def_pass_any "bless").
Definition mark_spam : FuncObj :=
  inner_transition save (Sequence ["published"; "new"]) "spam" false
    [condition_func2] (def_pass_any "mark_spam").

(** The instance after [self.model.publish()]. *)
Definition published : World := fst (invoke publish no_args model).

Definition cls : Class :=
  {| dir := [ ("accessible", Some (Callable (def_pass_any "accessible_states")));
              ("approve", Some (Callable approve));
              ("bless", Some (Callable bless));
              ("destroy", Some (Callable destroy));
              ("id", Some (Data PyNone));
              ("mark_spam", Some (Callable mark_spam));
              ("model_condition", Some (Callable (def_pass_any "model_condition")));
              ("objects", None);
              ("pk", Some (Data PyNone));
              ("publish", Some (Callable publish));
              ("state", Some (Data (PyStr "new")));
              ("unmet_condition", Some (Callable (def_pass_any "unmet_condition")));
              ("variable_condition", Some (Callable (def_pass_any "variable_condition"))) ];
     _state_actions := None |}.
End BlogPostWithConditions.

(** A model whose transition lists a guard that answers [False] before one
    that answers [True]. *)
Module Vetoed.
Definition fields : list Field := BlogPost.fields.
Definition model : World := new_instance fields "state".
Definition veto : FuncObj :=
  inner_transition save (Scalar "new") "vetoed" false
    [BlogPostWithConditions.unmet_condition;
     BlogPostWithConditions.condition_func] (def_pass "veto").
End Vetoed.

End Tests.

(** ** tests.py, run on the embedding *)

Module TestRuns.
Import Tests.

Infix ">>" := then_ (at level 60, right associativity).

Example test_initial_state_instatiated :
  snd (current_state BlogPost.model) = Return "new".
Proof. vm_compute. reflexivity. Qed.

Example test_known_transition_should_succeed :
  snd (can_proceed BlogPost.publish no_args BlogPost.model) = Return true
  /\ state_after (invoke BlogPost.publish no_args) BlogPost.model
     = Return "published"
  /\ snd ((invoke BlogPost.publish no_args
           >> can_proceed BlogPost.hide no_args) BlogPost.model) = Return true
  /\ state_after (invoke BlogPost.publish no_args
                  >> invoke BlogPost.hide no_args) BlogPost.model
     = Return "hidden".
Proof. vm_compute. repeat split; reflexivity. Qed.

Example test_unknow_transition_fails :
  snd (can_proceed BlogPost.hide no_args BlogPost.model) = Return false
  /\ snd (invoke BlogPost.hide no_args BlogPost.model)
     = Raise (NotImplementedError
                "Can't switch from state 'new' using method 'hide'").
Proof. vm_compute. split; reflexivity. Qed.

Example test_state_non_changed_after_fail :
  snd (can_proceed BlogPost.remove no_args BlogPost.model) = Return true
  /\ snd (invoke BlogPost.remove no_args BlogPost.model)
     = Raise (Exception "No rights to delete BlogPost object")
  /\ state_after (invoke BlogPost.remove no_args) BlogPost.model
     = Return "new".
Proof. vm_compute. repeat split; reflexivity. Qed.

Example test_mutiple_source_support_path_1_works :
  state_after (invoke BlogPost.publish no_args
               >> invoke BlogPost.steal no_args) BlogPost.model
  = Return "stolen".
Proof. vm_compute. reflexivity. Qed.

Example test_mutiple_source_support_path_2_works :
  state_after (invoke BlogPost.publish no_args
               >> invoke BlogPost.hide no_args
               >> invoke BlogPost.steal no_args) BlogPost.model
  = Return "stolen".
Proof. vm_compute. reflexivity. Qed.

Example test_star_shortcut_succeed :
  snd (can_proceed BlogPost.moderate no_args BlogPost.model) = Return true
  /\ state_after (invoke BlogPost.moderate no_args) BlogPost.model
     = Return "moderated".
Proof. vm_compute. split; reflexivity. Qed.

Example test_two_fsmfields_in_one_model_not_allowed :
  snd (invoke InvalidModel.validate no_args InvalidModel.model)
  = Raise (TypeError "More than one FSMField found in model").
Proof. vm_compute. reflexivity. Qed.

Example test_any_state_field_name_allowed :
  state_after (invoke Document.publish no_args) Document.model
  = Return "published".
Proof. vm_compute. reflexivity. Qed.

Import BlogPostWithConditions.

Example test_unmet_condition :
  snd (current_state published) = Return "published"
  /\ snd (can_proceed destroy no_args published) = Return false
  /\ snd (invoke destroy no_args published) = Return (PyBool false).
Proof. vm_compute. repeat split; reflexivity. Qed.

Example test_variable_condition :
  snd (can_proceed approve (positional [PyStr "foo"]) published) = Return false
  /\ snd (can_proceed approve (positional [PyStr "bar"]) published)
     = Return true
  /\ snd (invoke approve (positional [PyStr "foo"]) published)
     = Return (PyBool false)
  /\ state_after (invoke approve (positional [PyStr "bar"])) published
     = Return "approved".
Proof. vm_compute. repeat split; reflexivity. Qed.

Example test_func_without_args_kwargs :
  snd (can_proceed mark_spam no_args published) = Return true
  /\ state_after (invoke mark_spam no_args) published = Return "spam".
Proof. vm_compute. split; reflexivity. Qed.

Example test_accessible_states :
  (let '(_, _, r) := accessible_states cls no_args model in
   match r with
   | Return l => names l = [("mark_spam", "spam"); ("publish", "published")]
   | Raise _ => False
   end)
  /\ (let '(_, _, r) := accessible_states cls no_args published in
      match r with
      | Return l => names l = [("mark_spam", "spam")]
      | Raise _ => False
      end)
  /\ (let '(_, _, r) :=
        accessible_states cls (positional [PyStr "bar"]) published in
      match r with
      | Return l => names l = [("approve", "approved"); ("bless", "holy")]
      | Raise _ => False
      end).
Proof. vm_compute. repeat split; reflexivity. Qed.

End TestRuns.

(** ** Basic facts about the monad and the accessors *)

Lemma log_events_nil w : log_events [] w = w.
Proof. destruct w as [i l]. unfold log_events. simpl. by rewrite app_nil_r. Qed.

Lemma log_events_cons e es w :
  log_events es (log_event e w) = log_events (e :: es) w.
Proof. unfold log_events, log_event. simpl. by rewrite <- app_assoc. Qed.

Lemma log_events_snoc e es w :
  log_event e (log_events es w) = log_events (es ++ [e]) w.
Proof. unfold log_events, log_event. simpl. by rewrite app_assoc. Qed.

Lemma inst_log_events es w : inst (log_events es w) = inst w.
Proof. reflexivity. Qed.

(** Reading the state leaves the world alone. *)
Lemma current_state_pure w : current_state w = (w, state_of w).
Proof.
  unfold state_of, current_state, bind, read_instance, lift, getattr.
  destruct (_get_state_field (inst w)) as [field|e]; simpl; [|done].
  unfold bind, read_instance.
  destruct (attrs (inst w) !! name field); done.
Qed.


Lemma has_transition_run self w :
  has_transition self w =
  (w, match state_of w with
      | Return s =>
          Return (has_key (transitions self) s || has_key (transitions self) "*")
      | Raise e => Raise e
      end).
Proof.
  unfold has_transition, bind. rewrite current_state_pure.
  destruct (state_of w); done.
Qed.

(** A state is read exactly when one field is state-bearing and the attribute
    of its name is set. *)
Lemma state_of_Return w s :
  state_of w = Return s ->
  exists field,
    _get_state_field (inst w) = Return field
    /\ attrs (inst w) !! name field = Some s.
Proof.
  unfold state_of, current_state, bind, read_instance, lift, getattr.
  destruct (_get_state_field (inst w)) as [field|e]; simpl; [|done].
  unfold bind, read_instance.
  destruct (attrs (inst w) !! name field) as [v|] eqn:Hv; simpl; [|done].
  unfold ret. intros [= ->]. eauto.
Qed.

(** ** The guard loops *)

Lemma for_conditions_app pre rest a w :
  forallb (guard_passes (inst w) a) pre = true ->
  for_conditions (pre ++ rest) a w
  = for_conditions rest a (log_events (map guard_event pre) w).
Proof.
  revert w. induction pre as [|g pre IH]; intros w Hpre; simpl.
  - by rewrite log_events_nil.
  - simpl in Hpre. apply andb_true_iff in Hpre as [Hg Hpre].
    unfold guard_passes in Hg. unfold bind at 1, call_guard at 1.
    destruct (guard_fn g (inst w) a) as [v|e]; [|done].
    rewrite Hg. simpl. rewrite IH by exact Hpre.
    by rewrite log_events_cons.
Qed.

Lemma for_conditions_pass conds a w :
  forallb (guard_passes (inst w) a) conds = true ->
  for_conditions conds a w
  = (log_events (map guard_event conds) w, Return None).
Proof.
  intros H. rewrite <- (app_nil_r conds) at 1.
  by rewrite for_conditions_app.
Qed.

(** The loop stops at the first guard that does not answer with a true value:
    an early [return False] or the guard's exception. *)
Lemma for_conditions_stop pre g post a w :
  forallb (guard_passes (inst w) a) pre = true ->
  guard_passes (inst w) a g = false ->
  for_conditions (pre ++ g :: post) a w
  = (log_events (map guard_event (pre ++ [g])) w,
     match guard_fn g (inst w) a with
     | Return _ => Return (Some (PyBool false))
     | Raise e => Raise e
     end).
Proof.
  intros Hpre Hg. rewrite for_conditions_app by exact Hpre.
  simpl. unfold bind, call_guard. rewrite inst_log_events.
  rewrite log_events_snoc, map_app. simpl.
  unfold guard_passes in Hg.
  destruct (guard_fn g (inst w) a) as [v|e]; [|done].
  by rewrite Hg.
Qed.

(** The eager [map] of [conditions_met] when no guard raises: every guard is
    called, in order, and [all] then looks at the answers. *)
Lemma map_guards_returns conds a w :
  forallb (guard_returns (inst w) a) conds = true ->
  exists vs,
    map_guards conds a w = (log_events (map guard_event conds) w, Return vs)
    /\ forallb truthy vs = forallb (guard_passes (inst w) a) conds.
Proof.
  revert w. induction conds as [|g conds IH]; intros w H; simpl.
  - exists []. by rewrite log_events_nil.
  - simpl in H. apply andb_true_iff in H as [Hg H].
    unfold guard_returns in Hg. unfold guard_passes at 1.
    unfold bind at 1, call_guard at 1.
    destruct (guard_fn g (inst w) a) as [v|e] eqn:Hv; [|done].
    destruct (IH (log_event (EvGuard (guard_name g)) w) H) as (vs & Hrun & Hall).
    exists (v :: vs). unfold bind. rewrite Hrun. simpl.
    rewrite log_events_cons. split; [done|]. by rewrite Hall.
Qed.

(** ** The state advance *)

Lemma get_state_field_fields i1 i2 :
  _meta_fields i1 = _meta_fields i2 -> _get_state_field i1 = _get_state_field i2.
Proof. unfold _get_state_field. by intros ->. Qed.

Lemma to_next_state_run meta w s t :
  state_of w = Return s ->
  resolve meta s = Some t ->
  exists w',
    to_next_state meta w = (w', Return tt)
    /\ state_of w' = Return t
    /\ log w' = log w.
Proof.
  intros Hs Ht. destruct (state_of_Return w s Hs) as (field & Hf & Hv).
  unfold to_next_state, bind, read_instance, lift. rewrite Hf. simpl.
  unfold getattr, bind, read_instance. rewrite Hv. simpl.
  unfold resolve in Ht. unfold getitem.
  assert (Hnext :
    (match transitions meta !! s with
     | Some t0 => ret t0
     | None => match transitions meta !! "*" with
               | Some v => ret v
               | None => raise (KeyError "*")
               end
     end) w = (w, Return t)).
  { destruct (transitions meta !! s); [by inversion Ht|]. by rewrite Ht. }
  rewrite Hnext. unfold setattr, bind, read_instance, write_instance. simpl.
  eexists. split; [reflexivity|]. split; [|reflexivity].
  unfold state_of, current_state, bind, read_instance, lift. simpl.
  rewrite (get_state_field_fields _ (inst w)) by reflexivity.
  rewrite Hf. simpl. unfold getattr, bind, read_instance. simpl.
  by rewrite lookup_insert_eq.
Qed.

(** Without a target to resolve, the advance raises [KeyError] and writes
    nothing. *)
Lemma to_next_state_KeyError meta w s :
  state_of w = Return s ->
  resolve meta s = None ->
  to_next_state meta w = (w, Raise (KeyError "*")).
Proof.
  intros Hs Ht. destruct (state_of_Return w s Hs) as (field & Hf & Hv).
  unfold to_next_state, bind, read_instance, lift. rewrite Hf. simpl.
  unfold getattr, bind, read_instance. rewrite Hv. simpl.
  unfold resolve in Ht. unfold getitem.
  destruct (transitions meta !! s); [done|]. by rewrite Ht.
Qed.

(** ** The dispatch protocol *)

Section Dispatch.

Variable instance_save : M PyVal.
Variables (func : FuncObj) (conds : list Guard) (save : bool).
Variables (meta : FSMMeta) (a : Args).

Abbreviation dispatch :=
  (_change_state instance_save func conds save meta a).

(** What is left of the wrapper once the legality check has passed. *)
Lemma change_state_legal w :
  snd (has_transition meta w) = Return true ->
  dispatch w =
  (let* early := for_conditions conds a in
   match early with
   | Some v => ret v
   | None =>
       let* _ := call func meta a in
       let* _ := to_next_state meta in
       let* _ := (if save then call_save instance_save else ret PyNone) in
       ret PyNone
   end) w.
Proof.
  intros Hlegal. unfold _change_state. unfold bind at 1.
  rewrite has_transition_run in *. simpl in Hlegal.
  destruct (state_of w); [|done]. simpl in Hlegal.
  injection Hlegal as ->. done.
Qed.

(** The illegal call: the error, and a world that was not touched. *)
Lemma change_state_illegal w s :
  state_of w = Return s ->
  transitions meta !! s = None ->
  transitions meta !! "*" = None ->
  dispatch w =
  (w, Raise (NotImplementedError (illegal_message s (func_name func)))).
Proof.
  intros Hs Hexact Hstar. unfold _change_state. unfold bind at 1.
  rewrite has_transition_run, Hs. unfold has_key. rewrite Hexact, Hstar.
  simpl. unfold bind. by rewrite current_state_pure, Hs.
Qed.

(** A guard that stops the loop stops the call: nothing after it runs. *)
Lemma change_state_stop w pre g post :
  snd (has_transition meta w) = Return true ->
  conds = pre ++ g :: post ->
  forallb (guard_passes (inst w) a) pre = true ->
  guard_passes (inst w) a g = false ->
  dispatch w =
  (log_events (map guard_event (pre ++ [g])) w,
   match guard_fn g (inst w) a with
   | Return _ => Return (PyBool false)
   | Raise e => Raise e
   end).
Proof.
  intros Hlegal Hconds Hpre Hg. rewrite change_state_legal by exact Hlegal.
  unfold bind at 1. rewrite Hconds, for_conditions_stop by assumption.
  destruct (guard_fn g (inst w) a); done.
Qed.

(** The body fails: its exception and the world it left are the outcome. *)
Lemma change_state_body_raises w w' e :
  snd (has_transition meta w) = Return true ->
  forallb (guard_passes (inst w) a) conds = true ->
  call func meta a (log_events (map guard_event conds) w) = (w', Raise e) ->
  dispatch w = (w', Raise e).
Proof.
  intros Hlegal Hpass Hbody. rewrite change_state_legal by exact Hlegal.
  unfold bind at 1. rewrite for_conditions_pass by exact Hpass.
  unfold bind at 1. by rewrite Hbody.
Qed.

(** The accepted call: the body's value is dropped, the state is advanced to
    the resolved target, the hook runs when asked for, [None] is returned. *)
Lemma change_state_accept w s t w1 v :
  state_of w = Return s ->
  resolve meta s = Some t ->
  forallb (guard_passes (inst w) a) conds = true ->
  call func meta a (log_events (map guard_event conds) w) = (w1, Return v) ->
  state_of w1 = Return s ->
  exists w2,
    to_next_state meta w1 = (w2, Return tt)
    /\ state_of w2 = Return t
    /\ dispatch w =
       (let* _ := (if save then call_save instance_save else ret PyNone) in
        ret PyNone) w2.
Proof.
  intros Hs Ht Hpass Hbody Hs1.
  destruct (to_next_state_run meta w1 s t Hs1 Ht) as (w2 & Hadv & Hs2 & _).
  exists w2. split; [exact Hadv|]. split; [exact Hs2|].
  rewrite change_state_legal.
  - unfold bind at 1. rewrite for_conditions_pass by exact Hpass.
    unfold bind at 1. rewrite Hbody. unfold bind at 1. by rewrite Hadv.
  - rewrite has_transition_run, Hs. simpl. f_equal.
    unfold resolve in Ht. unfold has_key.
    destruct (transitions meta !! s); [done|]. by rewrite Ht.
Qed.

End Dispatch.

(** ** The queries *)

Lemma resolve_legal meta w s t :
  state_of w = Return s ->
  resolve meta s = Some t ->
  snd (has_transition meta w) = Return true.
Proof.
  intros Hs Ht. rewrite has_transition_run, Hs. simpl. f_equal.
  unfold resolve in Ht. unfold has_key.
  destruct (transitions meta !! s); [done|]. by rewrite Ht.
Qed.

(** [conditions_met] when no guard of the resolved target raises. *)
Lemma conditions_met_run meta a w s t conds :
  state_of w = Return s ->
  resolve meta s = Some t ->
  truthy (PyStr t) = true ->
  conditions meta !! t = Some conds ->
  forallb (guard_returns (inst w) a) conds = true ->
  conditions_met meta a w
  = (log_events (map guard_event conds) w,
     Return (forallb (guard_passes (inst w) a) conds)).
Proof.
  intros Hs Ht Htruthy Hconds Hret.
  unfold conditions_met. unfold bind at 1. rewrite current_state_pure, Hs.
  assert (Hnext :
    (if has_key (transitions meta) s
     then let* t0 := getitem (transitions meta) s in
          if truthy (PyStr t0) then ret t0 else getitem (transitions meta) "*"
     else getitem (transitions meta) "*") w = (w, Return t)).
  { unfold resolve in Ht. unfold has_key, getitem, bind.
    destruct (transitions meta !! s) as [t0|].
    - injection Ht as ->. unfold ret at 1. by rewrite Htruthy.
    - by rewrite Ht. }
  unfold bind at 1. rewrite Hnext.
  unfold try_except_TypeError, bind, getitem. rewrite Hconds. unfold ret at 1.
  destruct (map_guards_returns conds a w Hret) as (vs & Hrun & Hall).
  rewrite Hrun. unfold ret. by rewrite Hall.
Qed.

(** [TypeError] from a guard is what [conditions_met] turns into [False]. *)
Lemma conditions_met_TypeError meta a w s t pre g post msg :
  state_of w = Return s ->
  resolve meta s = Some t ->
  truthy (PyStr t) = true ->
  conditions meta !! t = Some (pre ++ g :: post) ->
  forallb (guard_returns (inst w) a) pre = true ->
  guard_fn g (inst w) a = Raise (TypeError msg) ->
  snd (conditions_met meta a w) = Return false.
Proof.
  intros Hs Ht Htruthy Hconds Hret Hg.
  unfold conditions_met. unfold bind at 1. rewrite current_state_pure, Hs.
  assert (Hnext :
    (if has_key (transitions meta) s
     then let* t0 := getitem (transitions meta) s in
          if truthy (PyStr t0) then ret t0 else getitem (transitions meta) "*"
     else getitem (transitions meta) "*") w = (w, Return t)).
  { unfold resolve in Ht. unfold has_key, getitem, bind.
    destruct (transitions meta !! s) as [t0|].
    - injection Ht as ->. unfold ret at 1. by rewrite Htruthy.
    - by rewrite Ht. }
  unfold bind at 1. rewrite Hnext.
  unfold try_except_TypeError, bind, getitem. rewrite Hconds. unfold ret at 1.
  assert (Hmap : exists w', map_guards (pre ++ g :: post) a w
                            = (w', Raise (TypeError msg))).
  { clear Hconds Hnext Hs. revert w Hret Hg.
    induction pre as [|p pre IH]; intros w Hret Hg; simpl.
    - unfold bind, call_guard. rewrite Hg. eauto.
    - simpl in Hret. apply andb_true_iff in Hret as [Hp Hret].
      unfold guard_returns in Hp. unfold bind at 1, call_guard at 1.
      destruct (guard_fn p (inst w) a) as [v|e]; [|done].
      destruct (IH (log_event (EvGuard (guard_name p)) w) Hret Hg)
        as (w' & Hw').
      unfold bind. rewrite Hw'. eauto. }
  destruct Hmap as (w' & ->). done.
Qed.

(** ** Registration *)

Lemma register_sequence_transitions states target conds fsm s :
  s ∈ states ->
  transitions (register (Sequence states) target conds fsm) !! s = Some target.
Proof.
  unfold register. simpl.
  generalize (match fsm with Some m => m | None => FSMMeta_init end).
  intros meta Hin. revert meta.
  induction states as [|x states IH] using rev_ind; intros meta.
  - by apply elem_of_nil in Hin.
  - rewrite fold_left_app. simpl.
    destruct (decide (s = x)) as [->|Hne].
    + by rewrite lookup_insert_eq.
    + rewrite lookup_insert_ne by done. apply IH.
      apply elem_of_app in Hin as [Hin|Hin]; [done|].
      apply list_elem_of_singleton in Hin. done.
Qed.

Lemma register_conditions source target conds fsm :
  conditions (register source target conds fsm) !! target = Some conds.
Proof. unfold register, set_conditions. simpl. by rewrite lookup_insert_eq. Qed.

Lemma set_conditions_absorb state target conds meta :
  set_conditions target conds
    (set_transition state target (set_conditions target conds meta))
  = set_conditions target conds (set_transition state target meta).
Proof.
  unfold set_conditions, set_transition. simpl. by rewrite insert_insert_eq.
Qed.

(** Registering a list of sources is registering them one at a time, each
    with the same target and guards. *)
Lemma register_sequence_one_by_one states target conds fsm :
  register (Sequence states) target conds fsm
  = fold_left (fun m state => register (Scalar state) target conds (Some m))
      states (register (Sequence []) target conds fsm).
Proof.
  unfold register. simpl.
  generalize (match fsm with Some m => m | None => FSMMeta_init end).
  induction states as [|x states IH] using rev_ind; intros meta.
  - reflexivity.
  - rewrite !fold_left_app. simpl. rewrite <- IH.
    by rewrite set_conditions_absorb.
Qed.

(** ** The claims *)

(** C1, as amended. When the legality check passes, all guards pass and the
    body of the method raises, the exception reaches the caller and the
    wrapper writes nothing, the advance step never runs: the world after the
    call is the world the body left. The state attribute therefore equals its
    value before the call whenever the body did not assign it itself. *)
Theorem C1_body_exception_no_advance
    (instance_save : M PyVal) (func : FuncObj) (conds : list Guard)
    (save : bool) (meta : FSMMeta) (a : Args) (w w' : World) (e : exn) :
  snd (has_transition meta w) = Return true ->
  forallb (guard_passes (inst w) a) conds = true ->
  call func meta a (log_events (map guard_event conds) w) = (w', Raise e) ->
  _change_state instance_save func conds save meta a w = (w', Raise e)
  /\ (state_of w' = state_of w ->
      state_of (fst (_change_state instance_save func conds save meta a w))
      = state_of w).
Proof.
  intros Hlegal Hpass Hbody.
  pose proof (change_state_body_raises instance_save func conds save meta a
                w w' e Hlegal Hpass Hbody) as Hrun.
  split; [exact Hrun|]. intros Hkept. by rewrite Hrun.
Qed.

(** [remove] of tests.py, called on a new [BlogPost]. *)
Lemma C1_body_exception_no_advance_witness :
  let w := Tests.BlogPost.model in
  let meta := Tests.meta_of Tests.BlogPost.remove in
  let w' := log_event (EvCall "remove") w in
  let e := Exception "No rights to delete BlogPost object" in
  snd (has_transition meta w) = Return true
  /\ forallb (guard_passes (inst w) Tests.no_args) [] = true
  /\ call Tests.BlogPost.remove_body meta Tests.no_args
       (log_events (map guard_event []) w) = (w', Raise e)
  /\ _change_state Tests.save Tests.BlogPost.remove_body [] false meta
       Tests.no_args w = (w', Raise e)
  /\ state_of
       (fst (_change_state Tests.save Tests.BlogPost.remove_body [] false meta
               Tests.no_args w))
     = state_of w.
Proof.
  intros w meta w' e.
  assert (H1 : snd (has_transition meta w) = Return true)
    by (vm_compute; reflexivity).
  assert (H2 : forallb (guard_passes (inst w) Tests.no_args) [] = true)
    by reflexivity.
  assert (H3 : call Tests.BlogPost.remove_body meta Tests.no_args
                 (log_events (map guard_event []) w) = (w', Raise e))
    by (vm_compute; reflexivity).
  destruct (C1_body_exception_no_advance Tests.save Tests.BlogPost.remove_body
              [] false meta Tests.no_args w w' e H1 H2 H3) as [Hrun Hstate].
  refine (conj H1 (conj H2 (conj H3 (conj Hrun (Hstate _))))).
  vm_compute. reflexivity.
Defined.

(** C1 as stated fails for a body that assigns the state field before it
    raises: legality and guards pass, the exception propagates, and the state
    after the call is not the state before it. *)
Lemma C1_counterexample :
  let w := Tests.Probe.model in
  let meta := Tests.meta_of Tests.Probe.scribble in
  snd (has_transition meta w) = Return true
  /\ forallb (guard_passes (inst w) Tests.no_args) [] = true
  /\ snd (call Tests.Probe.scribble_body meta Tests.no_args w)
     = Raise (Exception "boom")
  /\ snd (invoke Tests.Probe.scribble Tests.no_args w)
     = Raise (Exception "boom")
  /\ state_of w = Return "new"
  /\ state_of (fst (invoke Tests.Probe.scribble Tests.no_args w))
     = Return "scribbled"
  /\ state_of (fst (invoke Tests.Probe.scribble Tests.no_args w)) <> state_of w.
Proof. vm_compute. repeat split; try reflexivity. discriminate. Qed.

(** C2. When the registry of the invoked method has neither an entry for the
    current state nor a wildcard entry, the call raises the illegal-transition
    error, whose message carries the current state and the method name; no
    guard and no body is called and nothing is written (the world, trace
    included, is the one before the call), and this stays so however often
    the call is repeated. *)
Theorem C2_illegal_call_rejected
    (instance_save : M PyVal) (func : FuncObj) (conds : list Guard)
    (save : bool) (meta : FSMMeta) (a : Args) (w : World) (s : string) :
  state_of w = Return s ->
  transitions meta !! s = None ->
  transitions meta !! "*" = None ->
  _change_state instance_save func conds save meta a w
  = (w, Raise (NotImplementedError
                 ("Can't switch from state '" +:+ s +:+ "' using method '"
                  +:+ func_name func +:+ "'")))
  /\ forall n,
       repeat_calls n (_change_state instance_save func conds save meta a) w = w.
Proof.
  intros Hs Hexact Hstar.
  pose proof (change_state_illegal instance_save func conds save meta a w s
                Hs Hexact Hstar) as Hrun.
  split; [exact Hrun|].
  induction n as [|n IH]; [reflexivity|].
  unfold repeat_calls in *. simpl. rewrite IH, Hrun. reflexivity.
Qed.

(** [hide] of tests.py, called on a new [BlogPost]. *)
Lemma C2_illegal_call_rejected_witness :
  let w := Tests.BlogPost.model in
  let meta := Tests.meta_of Tests.BlogPost.hide in
  let call_hide :=
    _change_state Tests.save (Tests.def_pass "hide") [] false meta
      Tests.no_args in
  state_of w = Return "new"
  /\ transitions meta !! "new" = None
  /\ transitions meta !! "*" = None
  /\ call_hide w
     = (w, Raise (NotImplementedError
                    "Can't switch from state 'new' using method 'hide'"))
  /\ forall n, repeat_calls n call_hide w = w.
Proof.
  intros w meta call_hide.
  assert (H1 : state_of w = Return "new") by (vm_compute; reflexivity).
  assert (H2 : transitions meta !! "new" = None) by (vm_compute; reflexivity).
  assert (H3 : transitions meta !! "*" = None) by (vm_compute; reflexivity).
  destruct (C2_illegal_call_rejected Tests.save (Tests.def_pass "hide") []
              false meta Tests.no_args w "new" H1 H2 H3) as [Hrun Hrep].
  exact (conj H1 (conj H2 (conj H3 (conj Hrun Hrep)))).
Defined.

(** The accepted call, through to what the caller gets back. *)
Lemma change_state_advances
    (instance_save : M PyVal) (func : FuncObj) (conds : list Guard)
    (save : bool) (meta : FSMMeta) (a : Args) (w w1 w3 : World)
    (s t : string) (v x : PyVal) :
  state_of w = Return s ->
  resolve meta s = Some t ->
  forallb (guard_passes (inst w) a) conds = true ->
  call func meta a (log_events (map guard_event conds) w) = (w1, Return v) ->
  state_of w1 = Return s ->
  (if save then call_save instance_save else ret PyNone)
    (fst (to_next_state meta w1)) = (w3, Return x) ->
  _change_state instance_save func conds save meta a w = (w3, Return PyNone)
  /\ state_of (fst (to_next_state meta w1)) = Return t
  /\ (save = false -> state_of w3 = Return t).
Proof.
  intros Hs Ht Hpass Hbody Hs1 Hsave.
  destruct (change_state_accept instance_save func conds save meta a
              w s t w1 v Hs Ht Hpass Hbody Hs1) as (w2 & Hadv & Hs2 & Hrun).
  rewrite Hadv in *. simpl in *. split; [|split].
  - rewrite Hrun. unfold bind. by rewrite Hsave.
  - exact Hs2.
  - intros ->. unfold ret in Hsave. by injection Hsave as <- _.
Qed.










(** C8, as amended. Decorating a method with the list of sources [A], [B]
    and the target [T] registers what registering [A] and then [B] on their
    own, each with the target [T] and the same guards, registers: both
    sources look up to [T], and a call from [A] or from [B] whose guards pass
    and whose wrapped function completes, leaving the state attribute as it
    found it, ends in [T]. *)
Theorem C8_multi_source_registration
    (instance_save : M PyVal) (A B T : string) (save : bool)
    (conds : list Guard) (func : FuncObj) :
  let method :=
    inner_transition instance_save (Sequence [A; B]) T save conds func in
  let meta := register (Sequence [A; B]) T conds (_django_fsm func) in
  _django_fsm method = Some meta
  /\ meta = register (Scalar B) T conds
             (Some (register (Scalar A) T conds (_django_fsm func)))
  /\ transitions meta !! A = Some T
  /\ transitions meta !! B = Some T
  /\ (forall (s : string) (a : Args) (w w1 w3 : World) (v x : PyVal),
        s = A \/ s = B ->
        state_of w = Return s ->
        forallb (guard_passes (inst w) a) conds = true ->
        call func meta a (log_events (map guard_event conds) w)
        = (w1, Return v) ->
        state_of w1 = Return s ->
        (if save then call_save instance_save else ret PyNone)
          (fst (to_next_state meta w1)) = (w3, Return x) ->
        invoke method a w = (w3, Return PyNone)
        /\ state_of (fst (to_next_state meta w1)) = Return T
        /\ (save = false -> state_of w3 = Return T)).
Proof.
  intros method meta.
  assert (HA : transitions meta !! A = Some T).
  { apply register_sequence_transitions, elem_of_cons. by left. }
  assert (HB : transitions meta !! B = Some T).
  { apply register_sequence_transitions, elem_of_cons. right.
    apply elem_of_cons. by left. }
  split; [reflexivity|].
  split.
  { unfold meta. rewrite register_sequence_one_by_one. simpl. do 2 f_equal.
    unfold register. simpl. apply set_conditions_absorb. }
  split; [exact HA|]. split; [exact HB|].
  intros s a w w1 w3 v x Hsrc Hs Hpass Hbody Hs1 Hsave.
  apply (change_state_advances instance_save func conds save meta a
           w w1 w3 s T v x); try assumption.
  unfold resolve. destruct Hsrc as [->| ->]; by rewrite ?HA, ?HB.
Qed.

(** [steal] of tests.py, sources ['published'] and ['hidden'], called on a
    hidden post. *)
Lemma C8_multi_source_registration_witness :
  let w := fst ((Tests.then_ (invoke Tests.BlogPost.publish Tests.no_args)
                   (invoke Tests.BlogPost.hide Tests.no_args))
                  Tests.BlogPost.model) in
  let meta := register (Sequence ["published"; "hidden"]) "stolen" [] None in
  transitions meta !! "published" = Some "stolen"
  /\ transitions meta !! "hidden" = Some "stolen"
  /\ state_of w = Return "hidden"
  /\ snd (invoke Tests.BlogPost.steal Tests.no_args w) = Return PyNone
  /\ state_of (fst (invoke Tests.BlogPost.steal Tests.no_args w))
     = Return "stolen".
Proof.
  intros w meta.
  destruct (C8_multi_source_registration Tests.save "published" "hidden"
              "stolen" false [] (Tests.def_pass "steal"))
    as (_ & _ & HA & HB & Hcall).
  assert (H1 : state_of w = Return "hidden") by (vm_compute; reflexivity).
  destruct (Hcall "hidden" Tests.no_args w (log_event (EvCall "steal") w)
              (fst (to_next_state meta (log_event (EvCall "steal") w)))
              PyNone PyNone (or_intror eq_refl) H1 eq_refl)
    as (Hrun & _ & Hstate).
  - vm_compute; reflexivity.
  - vm_compute; reflexivity.
  - reflexivity.
  - refine (conj HA (conj HB (conj H1 (conj _ _)))).
    + unfold Tests.BlogPost.steal. by rewrite Hrun.
    + unfold Tests.BlogPost.steal. rewrite Hrun. simpl. exact (Hstate eq_refl).
Defined.

(** C8 as stated fails when the wrapped function does not leave the state
    alone. [drift], sources ['new'] and ['published'] with target
    ['archived'], has a body that assigns the state: called from ['new'] it
    raises [KeyError] and the instance is in ['lost']. [chain], the same
    sources with target ['checked'] stacked on a decorator from ['checked']
    to ['filed'], wraps a wrapper that advances the state itself: called
    from ['new'] it succeeds and the instance ends in ['filed']. *)
Lemma C8_counterexample :
  let w := Tests.Probe.model in
  state_of w = Return "new"
  /\ (transitions (Tests.meta_of Tests.Probe.drift) !! "new" = Some "archived"
      /\ snd (invoke Tests.Probe.drift Tests.no_args w) = Raise (KeyError "*")
      /\ state_of (fst (invoke Tests.Probe.drift Tests.no_args w))
         = Return "lost")
  /\ (transitions (Tests.meta_of Tests.Probe.chain) !! "new" = Some "checked"
      /\ snd (invoke Tests.Probe.chain Tests.no_args w) = Return PyNone
      /\ state_of (fst (invoke Tests.Probe.chain Tests.no_args w))
         = Return "filed"
      /\ state_of (fst (invoke Tests.Probe.chain Tests.no_args w))
         <> Return "checked").
Proof. vm_compute. repeat split; try reflexivity. discriminate. Qed.

(** C9. Reading the current state raises [TypeError], the module's
    configuration error, when the instance declares no state-bearing field or
    more than one, and is otherwise the read of the attribute named by the one
    state-bearing field. On an instance with no or several such fields every
    call of a wrapper, and every [can_proceed] on a transition, raises the
    same error before anything else happens. *)
Theorem C9_state_field_count (w : World) :
  let fields := List.filter is_fsm_field (_meta_fields (inst w)) in
  let found := length fields in
  (forall e,
      (found = 0 /\ e = TypeError "No FSMField found in model")
      \/ (1 < found /\ e = TypeError "More than one FSMField found in model") ->
      current_state w = (w, Raise e)
      /\ (forall instance_save func conds save meta a,
             _change_state instance_save func conds save meta a w
             = (w, Raise e))
      /\ (forall bound_method meta a,
             _django_fsm bound_method = Some meta ->
             can_proceed bound_method a w = (w, Raise e)))
  /\ (found = 1 ->
      exists field,
        fields = [field]
        /\ current_state w = getattr (name field) w
        /\ (forall v, attrs (inst w) !! name field = Some v ->
                      current_state w = (w, Return v))).
Proof.
  intros fields found. split.
  - intros e He.
    assert (Hstate : state_of w = Raise e).
    { unfold state_of, current_state, bind, read_instance, lift,
        _get_state_field. fold fields. fold found.
      destruct He as [[H0 ->]|[H1 ->]].
      - by rewrite H0.
      - destruct found as [|[|n]]; [lia|lia|done]. }
    assert (Hlegal : forall meta, has_transition meta w = (w, Raise e)).
    { intros meta. by rewrite has_transition_run, Hstate. }
    split; [by rewrite current_state_pure, Hstate|]. split.
    + intros instance_save func conds save meta a.
      unfold _change_state, bind. by rewrite Hlegal.
    + intros bound_method meta a Hmeta. unfold can_proceed. rewrite Hmeta.
      unfold bind. by rewrite Hlegal.
  - intros Hone. unfold found in Hone.
    destruct fields as [|field [|field' rest]] eqn:Hfields; try done.
    exists field. split; [done|].
    assert (Hrun : current_state w = getattr (name field) w).
    { unfold current_state, bind, read_instance, lift, _get_state_field.
      fold fields. by rewrite Hfields. }
    split; [exact Hrun|].
    intros v Hv. rewrite Hrun. unfold getattr, bind, read_instance.
    by rewrite Hv.
Qed.

(** [InvalidModel] of tests.py declares two state fields, [BlogPostStatus]
    none, [BlogPost] one. *)
Lemma C9_state_field_count_witness :
  (current_state Tests.InvalidModel.model
   = (Tests.InvalidModel.model,
      Raise (TypeError "More than one FSMField found in model"))
   /\ invoke Tests.InvalidModel.validate Tests.no_args Tests.InvalidModel.model
      = (Tests.InvalidModel.model,
         Raise (TypeError "More than one FSMField found in model")))
  /\ (current_state Tests.BlogPostStatus.model
      = (Tests.BlogPostStatus.model,
         Raise (TypeError "No FSMField found in model"))
      /\ invoke Tests.BlogPostStatus.publish Tests.no_args
           Tests.BlogPostStatus.model
         = (Tests.BlogPostStatus.model,
            Raise (TypeError "No FSMField found in model")))
  /\ current_state Tests.BlogPost.model = (Tests.BlogPost.model, Return "new").
Proof.
  split; [|split].
  - destruct (C9_state_field_count Tests.InvalidModel.model) as [Hbad _].
    destruct (Hbad (TypeError "More than one FSMField found in model"))
      as (Hread & Hcall & _).
    { right. split; [vm_compute; lia|reflexivity]. }
    split; [exact Hread|]. apply Hcall.
  - destruct (C9_state_field_count Tests.BlogPostStatus.model) as [Hbad _].
    destruct (Hbad (TypeError "No FSMField found in model"))
      as (Hread & Hcall & _).
    { left. split; reflexivity. }
    split; [exact Hread|]. apply Hcall.
  - destruct (C9_state_field_count Tests.BlogPost.model) as [_ Hone].
    destruct (Hone eq_refl) as (field & Hfields & _ & Hread).
    injection Hfields as <-. apply Hread. vm_compute. reflexivity.
Defined.

(** C10. [can_proceed] on a method that carries no transition metadata raises
    [NotImplementedError] with a message naming the method, whatever the
    instance and the arguments, and touches nothing. A transition that is
    legal and whose guards answer, one of them with a false value, gives
    [False] instead, so the two outcomes differ. *)
Theorem C10_can_proceed_requires_transition
    (bound_method : FuncObj) (a : Args) (w : World) :
  _django_fsm bound_method = None ->
  can_proceed bound_method a w
  = (w, Raise (NotImplementedError
                 (func_name bound_method +:+ " method is not transition")))
  /\ (forall (transition_method : FuncObj) (meta : FSMMeta) (s t : string)
             (guards : list Guard),
        _django_fsm transition_method = Some meta ->
        state_of w = Return s ->
        resolve meta s = Some t ->
        truthy (PyStr t) = true ->
        conditions meta !! t = Some guards ->
        forallb (guard_returns (inst w) a) guards = true ->
        forallb (guard_passes (inst w) a) guards = false ->
        snd (can_proceed transition_method a w) = Return false
        /\ snd (can_proceed transition_method a w)
           <> snd (can_proceed bound_method a w)).
Proof.
  intros Hnone.
  assert (Hrun : can_proceed bound_method a w
                 = (w, Raise (NotImplementedError
                      (func_name bound_method +:+ " method is not transition")))).
  { unfold can_proceed. by rewrite Hnone. }
  split; [exact Hrun|].
  intros tm meta s t guards Hmeta Hs Ht Htruthy Hguards Hret Hfail.
  assert (Hfalse : snd (can_proceed tm a w) = Return false).
  { unfold can_proceed. rewrite Hmeta. unfold bind.
    rewrite has_transition_run, Hs.
    assert (Hlegal : has_key (transitions meta) s
                     || has_key (transitions meta) "*" = true).
    { pose proof (resolve_legal meta w s t Hs Ht) as H.
      rewrite has_transition_run, Hs in H. simpl in H. by injection H. }
    rewrite Hlegal.
    rewrite (conditions_met_run meta a w s t guards) by assumption.
    simpl. by rewrite Hfail. }
  split; [exact Hfalse|]. rewrite Hfalse, Hrun. simpl. discriminate.
Qed.

(** [model_condition] of [BlogPostWithConditions] is a plain method;
    [destroy] is a transition whose guard [unmet_condition] answers
    [False]. *)
Lemma C10_can_proceed_requires_transition_witness :
  let w := Tests.BlogPostWithConditions.published in
  let plain := Tests.def_pass_any "model_condition" in
  _django_fsm plain = None
  /\ can_proceed plain Tests.no_args w
     = (w, Raise (NotImplementedError "model_condition method is not transition"))
  /\ snd (can_proceed Tests.BlogPostWithConditions.destroy Tests.no_args w)
     = Return false.
Proof.
  intros w plain.
  destruct (C10_can_proceed_requires_transition plain Tests.no_args w eq_refl)
    as (Hrun & Hother).
  destruct (Hother Tests.BlogPostWithConditions.destroy
              (Tests.meta_of Tests.BlogPostWithConditions.destroy)
              "published" "destroyed"
              [Tests.BlogPostWithConditions.condition_func;
               Tests.BlogPostWithConditions.unmet_condition])
    as (Hfalse & _); try (vm_compute; reflexivity).
  exact (conj eq_refl (conj Hrun Hfalse)).
Defined.

(** C3, at the input where the code departs from it. On a new [BlogPost],
    [moderate], registered for the wildcard source only, is accepted by the
    wrapper and by [can_proceed], and [accessible_states] lists [publish] and
    [remove] but not [moderate]: the index files [moderate] under the key
    ['*'], and only the key of the current state is read. *)
Theorem C3_wildcard_method_missing_from_accessible_states :
  let w := Tests.BlogPost.model in
  state_of w = Return "new"
  /\ transitions (Tests.meta_of Tests.BlogPost.moderate) !! "new" = None
  /\ transitions (Tests.meta_of Tests.BlogPost.moderate) !! "*"
     = Some "moderated"
  /\ snd (can_proceed Tests.BlogPost.moderate Tests.no_args w) = Return true
  /\ snd (invoke Tests.BlogPost.moderate Tests.no_args w) = Return PyNone
  /\ state_of (fst (invoke Tests.BlogPost.moderate Tests.no_args w))
     = Return "moderated"
  /\ (let '(_, _, r) := accessible_states Tests.BlogPost.cls Tests.no_args w in
      match r with
      | Return l =>
          Tests.names l = [("publish", "published"); ("remove", "removed")]
      | Raise _ => False
      end)
  /\ (let '(cls, _, _) := accessible_states Tests.BlogPost.cls Tests.no_args w in
      match _state_actions cls with
      | Some index =>
          Tests.names (default [] (index !! "*"))
          = [("moderate", "moderated"); ("moderate", "moderated")]
      | None => False
      end).
Proof. vm_compute. repeat split; reflexivity. Qed.

(** C4, at the input where the code departs from it. On a published
    [BlogPostWithConditions], [mark_spam('bar')] calls its guard
    [condition_func2] with one argument too many: the guard raises
    [TypeError] and the wrapper lets it through to the caller instead of
    returning a false value, the body not called and the state as before.
    [can_proceed], through [conditions_met], answers [False] there. *)
Theorem C4_guard_exception_reaches_caller :
  let w := Tests.BlogPostWithConditions.published in
  let a := Tests.positional [PyStr "bar"] in
  let out := invoke Tests.BlogPostWithConditions.mark_spam a w in
  state_of w = Return "published"
  /\ resolve (Tests.meta_of Tests.BlogPostWithConditions.mark_spam) "published"
     = Some "spam"
  /\ guard_fn Tests.BlogPostWithConditions.condition_func2 (inst w) a
     = Raise (TypeError "condition_func2() takes exactly 1 argument")
  /\ snd out = Raise (TypeError "condition_func2() takes exactly 1 argument")
  /\ log (fst out) = log w ++ [EvGuard "condition_func2"]
  /\ state_of (fst out) = Return "published"
  /\ snd (can_proceed Tests.BlogPostWithConditions.mark_spam a w)
     = Return false.
Proof. vm_compute. repeat split; reflexivity. Qed.

(** ** Remarks *)

(** Stacked decorators share one registry and nest their wrappers, so the
    advance step runs once per wrapper: [review] called on a new instance
    goes to ['reviewed'] in the inner wrapper, by the exact entry, and on to
    ['moderated'] in the outer one, by the wildcard entry. *)
Example stacked_decorators_advance_twice :
  let out := invoke Tests.Probe.review Tests.no_args Tests.Probe.model in
  snd out = Return PyNone
  /\ log (fst out) = [EvCall "review"; EvCall "review"]
  /\ state_of (fst out) = Return "moderated".
Proof. vm_compute. repeat split; reflexivity. Qed.

(** ** Further properties of the registry *)

Lemma fold_set_transition_lookup states target meta k :
  transitions (fold_left (fun m state => set_transition state target m)
                 states meta) !! k
  = if bool_decide (k ∈ states) then Some target else transitions meta !! k.
Proof.
  revert meta. induction states as [|x states IH] using rev_ind; intros meta.
  - rewrite bool_decide_eq_false_2; [done|]. apply not_elem_of_nil.
  - rewrite fold_left_app. simpl.
    destruct (decide (k = x)) as [->|Hne].
    + rewrite lookup_insert_eq, bool_decide_eq_true_2; [done|].
      apply elem_of_app. right. apply list_elem_of_singleton. done.
    + rewrite lookup_insert_ne by done. rewrite IH.
      destruct (decide (k ∈ states)) as [Hin|Hnin].
      * rewrite !bool_decide_eq_true_2; [done| |done].
        apply elem_of_app. by left.
      * rewrite !bool_decide_eq_false_2; [done| |done].
        intros [H|H]%elem_of_app; [done|].
        apply list_elem_of_singleton in H. done.
Qed.

Lemma fold_set_transition_conditions states target meta :
  conditions (fold_left (fun m state => set_transition state target m)
                states meta)
  = conditions meta.
Proof.
  revert meta. induction states as [|x states IH]; intros meta; [done|].
  simpl. by rewrite IH.
Qed.

(** What a registration leaves in [transitions]: the target under every
    source it names, and the old entry under every other key. *)
Lemma register_transitions source target conds fsm k :
  transitions (register source target conds fsm) !! k
  = if bool_decide (k ∈ sources_of source) then Some target
    else transitions (default FSMMeta_init fsm) !! k.
Proof.
  unfold register. simpl.
  replace (match fsm with Some m => m | None => FSMMeta_init end)
    with (default FSMMeta_init fsm) by (by destruct fsm).
  destruct source as [state|states]; simpl.
  - destruct (decide (k = state)) as [->|Hne].
    + rewrite lookup_insert_eq, bool_decide_eq_true_2; [done|].
      apply list_elem_of_singleton. done.
    + rewrite lookup_insert_ne by done.
      rewrite bool_decide_eq_false_2; [done|].
      intros H. apply list_elem_of_singleton in H. done.
  - apply fold_set_transition_lookup.
Qed.

(** What a registration leaves in [conditions]: the new guard list under the
    target, the old list under every other target. *)
Lemma register_conditions_lookup source target conds fsm k :
  conditions (register source target conds fsm) !! k
  = if bool_decide (k = target) then Some conds
    else conditions (default FSMMeta_init fsm) !! k.
Proof.
  unfold register. simpl.
  replace (match fsm with Some m => m | None => FSMMeta_init end)
    with (default FSMMeta_init fsm) by (by destruct fsm).
  assert (Hc : conditions
                 match source with
                 | Scalar state =>
                     set_transition state target (default FSMMeta_init fsm)
                 | Sequence states =>
                     fold_left (fun m state => set_transition state target m)
                       states (default FSMMeta_init fsm)
                 end = conditions (default FSMMeta_init fsm)).
  { destruct source; [done|]. apply fold_set_transition_conditions. }
  rewrite Hc. destruct (decide (k = target)) as [->|Hne].
  - by rewrite lookup_insert_eq, bool_decide_eq_true_2.
  - rewrite lookup_insert_ne by done. by rewrite bool_decide_eq_false_2.
Qed.

Lemma registry_ok_init : registry_ok FSMMeta_init.
Proof. intros s t H. simpl in H. by rewrite lookup_empty in H. Qed.

Lemma registry_ok_register source target conds fsm :
  truthy (PyStr target) = true ->
  registry_ok (default FSMMeta_init fsm) ->
  registry_ok (register source target conds fsm).
Proof.
  intros Htarget Hok s t. rewrite register_transitions.
  rewrite !register_conditions_lookup.
  destruct (bool_decide (s ∈ sources_of source)).
  - intros [= <-]. split; [done|]. by rewrite bool_decide_eq_true_2.
  - intros Hold. destruct (Hok s t Hold) as [Ht Hc]. split; [done|].
    destruct (bool_decide (t = target)); [by eexists|done].
Qed.

Lemma transition_run instance_save d :
  transition instance_save (d_source d) (d_target d) (d_save d)
    (d_conditions d)
  = match d_target d with
    | Some t =>
        if has_target d then
          Return (inner_transition instance_save (d_source d) t (d_save d)
                    (d_conditions d))
        else Raise (ValueError "Result state not specified")
    | None => Raise (ValueError "Result state not specified")
    end.
Proof.
  unfold transition, has_target. destruct (d_target d) as [t|]; [|done].
  by destruct (truthy (PyStr t)).
Qed.

Lemma decorate_is_Some instance_save lines func method :
  is_Some (_django_fsm func) ->
  decorate instance_save lines func = Return method ->
  is_Some (_django_fsm method).
Proof.
  revert func. induction lines as [|d lines IH]; intros func Hsome Hrun;
    simpl in Hrun.
  - by injection Hrun as <-.
  - rewrite transition_run in Hrun.
    destruct (d_target d) as [t|]; [|done].
    destruct (has_target d); [|done].
    eapply IH; [|exact Hrun]. simpl. eauto.
Qed.

Lemma decorate_run instance_save lines func :
  (forall meta, _django_fsm func = Some meta -> registry_ok meta) ->
  match decorate instance_save lines func with
  | Return method =>
      forallb has_target lines = true
      /\ func_name method = func_name func
      /\ (forall meta, _django_fsm method = Some meta -> registry_ok meta)
      /\ (lines <> [] -> is_Some (_django_fsm method))
  | Raise e =>
      forallb has_target lines = false
      /\ e = ValueError "Result state not specified"
  end.
Proof.
  revert func. induction lines as [|d lines IH]; intros func Hok; simpl.
  - done.
  - rewrite transition_run.
    destruct (d_target d) as [t|] eqn:Ht;
      [|unfold has_target; by rewrite Ht].
    destruct (has_target d) eqn:Hd; [|done].
    assert (Htruthy : truthy (PyStr t) = true).
    { unfold has_target in Hd. by rewrite Ht in Hd. }
    set (wrapped := inner_transition instance_save (d_source d) t (d_save d)
                      (d_conditions d) func).
    assert (Hok' : forall meta, _django_fsm wrapped = Some meta ->
                                registry_ok meta).
    { simpl. intros meta [= <-]. apply registry_ok_register; [done|].
      destruct (_django_fsm func) as [m|] eqn:Hm; simpl.
      - by apply Hok.
      - apply registry_ok_init. }
    specialize (IH wrapped Hok').
    destruct (decorate instance_save lines wrapped) as [method|e] eqn:Hrun.
    + destruct IH as (Hall & Hname & Hreg & _). simpl.
      split; [done|]. split; [done|]. split; [exact Hreg|].
      intros _. apply (decorate_is_Some instance_save lines wrapped); [|done].
      by eexists.
    + done.
Qed.

(** ** Further properties of the queries *)

Lemma map_guards_raise pre g post a w e :
  forallb (guard_returns (inst w) a) pre = true ->
  guard_fn g (inst w) a = Raise e ->
  map_guards (pre ++ g :: post) a w
  = (log_events (map guard_event (pre ++ [g])) w, Raise e).
Proof.
  revert w. induction pre as [|p pre IH]; intros w Hret Hg; simpl.
  - unfold bind, call_guard. rewrite Hg. unfold log_events, log_event.
    reflexivity.
  - simpl in Hret. apply andb_true_iff in Hret as [Hp Hret].
    unfold guard_returns in Hp. unfold bind at 1, call_guard at 1.
    destruct (guard_fn p (inst w) a) as [v|e']; [|done].
    unfold bind.
    rewrite (IH (log_event (EvGuard (guard_name p)) w) Hret Hg).
    by rewrite log_events_cons.
Qed.

(** [conditions_met] once the target is resolved: what is left is the guard
    list filed under it. *)
Lemma conditions_met_resolved meta a w s t guards :
  state_of w = Return s ->
  resolve meta s = Some t ->
  truthy (PyStr t) = true ->
  conditions meta !! t = Some guards ->
  conditions_met meta a w
  = try_except_TypeError
      (let* vs := map_guards guards a in ret (forallb truthy vs))
      (ret false) w.
Proof.
  intros Hs Ht Htruthy Hguards.
  unfold conditions_met. unfold bind at 1. rewrite current_state_pure, Hs.
  assert (Hnext :
    (if has_key (transitions meta) s
     then let* t0 := getitem (transitions meta) s in
          if truthy (PyStr t0) then ret t0 else getitem (transitions meta) "*"
     else getitem (transitions meta) "*") w = (w, Return t)).
  { unfold resolve in Ht. unfold has_key, getitem, bind.
    destruct (transitions meta !! s) as [t0|].
    - injection Ht as ->. unfold ret at 1. by rewrite Htruthy.
    - by rewrite Ht. }
  unfold bind at 1. rewrite Hnext.
  unfold try_except_TypeError, bind at 1, getitem. by rewrite Hguards.
Qed.

Lemma registry_ok_resolve meta s t :
  registry_ok meta ->
  resolve meta s = Some t ->
  truthy (PyStr t) = true /\ is_Some (conditions meta !! t).
Proof.
  intros Hok Ht. unfold resolve in Ht.
  destruct (transitions meta !! s) as [t0|] eqn:Hexact.
  - injection Ht as ->. by apply (Hok s).
  - by apply (Hok "*").
Qed.

(** X1. A stack of [transition] decorators on a plain function either fails
    with [ValueError], exactly when some line names no target or an empty
    one, or yields a method with the name of the function whose registry maps
    every source to a non-empty target that has a guard list filed under
    it. *)
Theorem X1_decorator_stack
    (instance_save : M PyVal) (lines : list Decoration) (func : FuncObj) :
  _django_fsm func = None ->
  match decorate instance_save lines func with
  | Return method =>
      forallb has_target lines = true
      /\ func_name method = func_name func
      /\ (lines <> [] ->
          exists meta, _django_fsm method = Some meta /\ registry_ok meta)
  | Raise e =>
      forallb has_target lines = false
      /\ e = ValueError "Result state not specified"
  end.
Proof.
  intros Hplain.
  pose proof (decorate_run instance_save lines func) as Hrun.
  destruct (decorate instance_save lines func) as [method|e].
  - destruct Hrun as (Hall & Hname & Hreg & Hsome).
    { intros meta H. by rewrite Hplain in H. }
    split; [done|]. split; [done|]. intros Hne.
    destruct (Hsome Hne) as [meta Hmeta]. exists meta. split; [done|].
    by apply Hreg.
  - apply Hrun. intros meta H. by rewrite Hplain in H.
Qed.

(** The two lines of [review], and the stack with a line without target. *)
Lemma X1_decorator_stack_witness :
  (exists method,
      decorate Tests.save Tests.Probe.review_lines (Tests.def_pass "review")
      = Return method
      /\ func_name method = "review"
      /\ exists meta, _django_fsm method = Some meta /\ registry_ok meta)
  /\ decorate Tests.save Tests.Probe.broken_lines (Tests.def_pass "review")
     = Raise (ValueError "Result state not specified").
Proof.
  split.
  - pose proof (X1_decorator_stack Tests.save Tests.Probe.review_lines
                  (Tests.def_pass "review") eq_refl) as H.
    destruct (decorate Tests.save Tests.Probe.review_lines
                (Tests.def_pass "review")) as [method|e] eqn:Hrun.
    + destruct H as (_ & Hname & Hreg). exists method.
      split; [reflexivity|]. split; [exact Hname|]. by apply Hreg.
    + destruct H as [H _]. vm_compute in H. discriminate H.
  - pose proof (X1_decorator_stack Tests.save Tests.Probe.broken_lines
                  (Tests.def_pass "review") eq_refl) as H.
    destruct (decorate Tests.save Tests.Probe.broken_lines
                (Tests.def_pass "review")) as [method|e] eqn:Hrun.
    + destruct H as [H _]. vm_compute in H. discriminate H.
    + destruct H as [_ ->]. reflexivity.
Defined.

(** X2. On a method made by a stack of decorators, [can_proceed] in a state
    with a matching source or wildcard entry never fails on a registry
    lookup: the resolved target has a guard list, and the answer is what the
    evaluation of that list gives, [TypeError] turned into [False]. *)
Theorem X2_can_proceed_on_decorated_method
    (instance_save : M PyVal) (lines : list Decoration)
    (func method : FuncObj) (meta : FSMMeta) (a : Args) (w : World)
    (s t : string) :
  _django_fsm func = None ->
  decorate instance_save lines func = Return method ->
  _django_fsm method = Some meta ->
  state_of w = Return s ->
  resolve meta s = Some t ->
  exists guards,
    conditions meta !! t = Some guards
    /\ can_proceed method a w
       = try_except_TypeError
           (let* vs := map_guards guards a in ret (forallb truthy vs))
           (ret false) w.
Proof.
  intros Hplain Hdeco Hmeta Hs Ht.
  pose proof (decorate_run instance_save lines func) as Hrun.
  rewrite Hdeco in Hrun. destruct Hrun as (_ & _ & Hreg & _).
  { intros m H. by rewrite Hplain in H. }
  destruct (registry_ok_resolve meta s t (Hreg meta Hmeta) Ht)
    as [Htruthy [guards Hguards]].
  exists guards. split; [exact Hguards|].
  unfold can_proceed. rewrite Hmeta. unfold bind at 1.
  rewrite has_transition_run, Hs.
  pose proof (resolve_legal meta w s t Hs Ht) as Hlegal.
  rewrite has_transition_run, Hs in Hlegal. simpl in Hlegal.
  injection Hlegal as ->.
  by apply (conditions_met_resolved meta a w s t guards).
Qed.

(** [review] on a new instance: the exact entry resolves to ['reviewed'],
    whose guard list is empty. *)
Lemma X2_can_proceed_on_decorated_method_witness :
  decorate Tests.save Tests.Probe.review_lines (Tests.def_pass "review")
  = Return Tests.Probe.review
  /\ exists guards,
       conditions (Tests.meta_of Tests.Probe.review) !! "reviewed"
       = Some guards
       /\ can_proceed Tests.Probe.review Tests.no_args Tests.Probe.model
          = try_except_TypeError
              (let* vs := map_guards guards Tests.no_args in
               ret (forallb truthy vs))
              (ret false) Tests.Probe.model.
Proof.
  split; [reflexivity|].
  apply (X2_can_proceed_on_decorated_method Tests.save
           Tests.Probe.review_lines (Tests.def_pass "review")
           Tests.Probe.review (Tests.meta_of Tests.Probe.review)
           Tests.no_args Tests.Probe.model "new" "reviewed");
    first [reflexivity | vm_compute; reflexivity].
Defined.

(** X3. In [can_proceed], a guard that raises ends the evaluation even when
    an earlier guard has already answered with a false value: [TypeError]
    becomes the answer [False], any other exception reaches the caller. The
    guards before it were all called, none after it. *)
Theorem X3_can_proceed_guard_exception
    (method : FuncObj) (meta : FSMMeta) (a : Args) (w : World) (s t : string)
    (pre : list Guard) (g : Guard) (post : list Guard) (e : exn) :
  _django_fsm method = Some meta ->
  state_of w = Return s ->
  resolve meta s = Some t ->
  truthy (PyStr t) = true ->
  conditions meta !! t = Some (pre ++ g :: post) ->
  forallb (guard_returns (inst w) a) pre = true ->
  guard_fn g (inst w) a = Raise e ->
  can_proceed method a w
  = (log_events (map guard_event (pre ++ [g])) w,
     match e with
     | TypeError _ => Return false
     | _ => Raise e
     end).
Proof.
  intros Hmeta Hs Ht Htruthy Hguards Hpre Hg.
  unfold can_proceed. rewrite Hmeta. unfold bind at 1.
  rewrite has_transition_run, Hs.
  pose proof (resolve_legal meta w s t Hs Ht) as Hlegal.
  rewrite has_transition_run, Hs in Hlegal. simpl in Hlegal.
  injection Hlegal as ->.
  rewrite (conditions_met_resolved meta a w s t (pre ++ g :: post))
    by assumption.
  unfold try_except_TypeError, bind.
  rewrite (map_guards_raise pre g post a w e Hpre Hg).
  by destruct e.
Qed.

(** [mark_spam] of tests.py asked about with the argument ['bar']. *)
Lemma X3_can_proceed_guard_exception_witness :
  let w := Tests.BlogPostWithConditions.published in
  let a := Tests.positional [PyStr "bar"] in
  guard_fn Tests.BlogPostWithConditions.condition_func2 (inst w) a
  = Raise (TypeError "condition_func2() takes exactly 1 argument")
  /\ can_proceed Tests.BlogPostWithConditions.mark_spam a w
     = (log_events
          (map guard_event ([] ++ [Tests.BlogPostWithConditions.condition_func2]))
          w,
        Return false).
Proof.
  intros w a. split; [reflexivity|].
  apply (X3_can_proceed_guard_exception
           Tests.BlogPostWithConditions.mark_spam
           (Tests.meta_of Tests.BlogPostWithConditions.mark_spam) a w
           "published" "spam" [] Tests.BlogPostWithConditions.condition_func2
           [] (TypeError "condition_func2() takes exactly 1 argument"));
    first [reflexivity | vm_compute; reflexivity].
Defined.

Lemma can_proceed_returning_guards
    (method : FuncObj) (meta : FSMMeta) (a : Args) (w : World) (s t : string)
    (guards : list Guard) :
  _django_fsm method = Some meta ->
  state_of w = Return s ->
  resolve meta s = Some t ->
  truthy (PyStr t) = true ->
  conditions meta !! t = Some guards ->
  forallb (guard_returns (inst w) a) guards = true ->
  can_proceed method a w
  = (log_events (map guard_event guards) w,
     Return (forallb (guard_passes (inst w) a) guards)).
Proof.
  intros Hmeta Hs Ht Htruthy Hguards Hret.
  unfold can_proceed. rewrite Hmeta. unfold bind at 1.
  rewrite has_transition_run, Hs.
  pose proof (resolve_legal meta w s t Hs Ht) as Hlegal.
  rewrite has_transition_run, Hs in Hlegal. simpl in Hlegal.
  injection Hlegal as ->.
  by apply (conditions_met_run meta a w s t guards).
Qed.

(** X4. When no guard raises, [can_proceed] calls every guard filed under the
    resolved target, in order, also those after a guard that answered with a
    false value, and answers whether all of them answered with a true
    value. *)
Theorem X4_can_proceed_calls_every_guard
    (method : FuncObj) (meta : FSMMeta) (a : Args) (w : World) (s t : string)
    (guards : list Guard) :
  _django_fsm method = Some meta ->
  state_of w = Return s ->
  resolve meta s = Some t ->
  truthy (PyStr t) = true ->
  conditions meta !! t = Some guards ->
  forallb (guard_returns (inst w) a) guards = true ->
  can_proceed method a w
  = (log_events (map guard_event guards) w,
     Return (forallb (guard_passes (inst w) a) guards)).
Proof. apply can_proceed_returning_guards. Qed.

(** [veto]: [unmet_condition] answers [False] and [condition_func] is called
    all the same. *)
Lemma X4_can_proceed_calls_every_guard_witness :
  let w := Tests.Vetoed.model in
  can_proceed Tests.Vetoed.veto Tests.no_args w
  = (log_events
       (map guard_event [Tests.BlogPostWithConditions.unmet_condition;
                         Tests.BlogPostWithConditions.condition_func]) w,
     Return false)
  /\ log (fst (can_proceed Tests.Vetoed.veto Tests.no_args w))
     = [EvGuard "unmet_condition"; EvGuard "condition_func"]
  /\ log (fst (invoke Tests.Vetoed.veto Tests.no_args w))
     = [EvGuard "unmet_condition"].
Proof.
  intros w.
  assert (Hrun := X4_can_proceed_calls_every_guard Tests.Vetoed.veto
            (Tests.meta_of Tests.Vetoed.veto) Tests.no_args w "new" "vetoed"
            [Tests.BlogPostWithConditions.unmet_condition;
             Tests.BlogPostWithConditions.condition_func]
            eq_refl eq_refl eq_refl eq_refl eq_refl eq_refl).
  split; [exact Hrun|]. split; [by rewrite Hrun|].
  vm_compute. reflexivity.
Defined.

(** X5. In a state for which the registry has neither an entry nor a
    wildcard entry, [can_proceed] answers [False] without calling a guard
    and without touching anything, where the call itself would raise. *)
Theorem X5_can_proceed_illegal_state
    (method : FuncObj) (meta : FSMMeta) (a : Args) (w : World) (s : string) :
  _django_fsm method = Some meta ->
  state_of w = Return s ->
  resolve meta s = None ->
  can_proceed method a w = (w, Return false).
Proof.
  intros Hmeta Hs Hnone. unfold can_proceed. rewrite Hmeta. unfold bind.
  rewrite has_transition_run, Hs. unfold resolve in Hnone. unfold has_key.
  destruct (transitions meta !! s); [done|]. by rewrite Hnone.
Qed.

(** [hide] of tests.py asked about on a new [BlogPost]. *)
Lemma X5_can_proceed_illegal_state_witness :
  state_of Tests.BlogPost.model = Return "new"
  /\ resolve (Tests.meta_of Tests.BlogPost.hide) "new" = None
  /\ can_proceed Tests.BlogPost.hide Tests.no_args Tests.BlogPost.model
     = (Tests.BlogPost.model, Return false).
Proof.
  assert (H1 : state_of Tests.BlogPost.model = Return "new")
    by (vm_compute; reflexivity).
  assert (H2 : resolve (Tests.meta_of Tests.BlogPost.hide) "new" = None)
    by (vm_compute; reflexivity).
  exact (conj H1 (conj H2
           (X5_can_proceed_illegal_state Tests.BlogPost.hide
              (Tests.meta_of Tests.BlogPost.hide) Tests.no_args
              Tests.BlogPost.model "new" eq_refl H1 H2))).
Defined.

Lemma map_guards_Return_inv conds a w w' vs :
  map_guards conds a w = (w', Return vs) ->
  forallb (guard_returns (inst w) a) conds = true.
Proof.
  revert w w' vs. induction conds as [|g conds IH]; intros w w' vs Hrun;
    simpl in *; [done|].
  unfold bind at 1, call_guard at 1 in Hrun. unfold guard_returns at 1.
  destruct (guard_fn g (inst w) a) as [v|e]; [|done]. simpl.
  unfold bind in Hrun.
  destruct (map_guards conds a (log_event (EvGuard (guard_name g)) w))
    as [w1 [vs1|e1]] eqn:Hrest; [|done].
  by apply (IH _ _ _ Hrest).
Qed.

(** The world after a run of guards differs from the one before by guard
    events of the trace only. *)
Lemma map_guards_trace conds a w :
  exists gs, fst (map_guards conds a w) = log_events (map guard_event gs) w.
Proof.
  revert w. induction conds as [|g conds IH]; intros w; simpl.
  - exists []. by rewrite log_events_nil.
  - unfold bind at 1, call_guard at 1.
    destruct (guard_fn g (inst w) a) as [v|e].
    + destruct (IH (log_event (EvGuard (guard_name g)) w)) as [gs Hgs].
      exists (g :: gs). unfold bind.
      destruct (map_guards conds a _) as [w1 [vs|e]]; simpl in *;
        rewrite Hgs; by rewrite log_events_cons.
    + exists [g]. reflexivity.
Qed.

Lemma conditions_met_trace meta a w :
  exists gs, fst (conditions_met meta a w) = log_events (map guard_event gs) w.
Proof.
  assert (Hnil : w = log_events (map guard_event []) w)
    by (by rewrite log_events_nil).
  unfold conditions_met. unfold bind at 1. rewrite current_state_pure.
  destruct (state_of w) as [s|e]; [|by exists []].
  unfold bind at 1.
  assert (Hnext : exists r,
    (if has_key (transitions meta) s
     then let* t0 := getitem (transitions meta) s in
          if truthy (PyStr t0) then ret t0 else getitem (transitions meta) "*"
     else getitem (transitions meta) "*") w = (w, r)).
  { unfold has_key, getitem, bind.
    destruct (transitions meta !! s) as [t0|].
    - unfold ret at 1. destruct (truthy (PyStr t0)); [by eexists|].
      destruct (transitions meta !! "*"); by eexists.
    - destruct (transitions meta !! "*"); by eexists. }
  destruct Hnext as [[t|e] ->]; [|by exists []].
  unfold try_except_TypeError, bind at 1, getitem.
  destruct (conditions meta !! t) as [guards|]; [|by exists []].
  unfold ret at 1. unfold bind.
  destruct (map_guards_trace guards a w) as [gs Hgs]. exists gs.
  destruct (map_guards guards a w) as [w1 [vs|e]]; simpl in *; [done|].
  by destruct e.
Qed.

(** A registration on a plain function leaves one target in the registry. *)
Lemma register_single_target source target conds s t :
  resolve (register source target conds None) s = Some t -> t = target.
Proof.
  unfold resolve. rewrite !register_transitions. simpl.
  rewrite !lookup_empty.
  destruct (bool_decide (s ∈ sources_of source)); [by intros [= <-]|].
  destruct (bool_decide ("*" ∈ sources_of source)); [by intros [= <-]|done].
Qed.

(** X6. For a method decorated once, an answer [True] of [can_proceed] means
    the call gets as far as the body: the legality check and every guard of
    the wrapper pass, so the call neither raises the illegal-transition error
    nor returns [False]; what it does from there is the body, the advance and
    the hook. *)
Theorem X6_can_proceed_true_reaches_body
    (instance_save : M PyVal) (source : Source) (target : string)
    (save : bool) (conds : list Guard) (func : FuncObj) (a : Args)
    (w w' : World) :
  _django_fsm func = None ->
  truthy (PyStr target) = true ->
  let method := inner_transition instance_save source target save conds func in
  let meta := register source target conds None in
  can_proceed method a w = (w', Return true) ->
  w' = log_events (map guard_event conds) w
  /\ forallb (guard_passes (inst w) a) conds = true
  /\ invoke method a w
     = (let* _ := call func meta a in
        let* _ := to_next_state meta in
        let* _ := (if save then call_save instance_save else ret PyNone) in
        ret PyNone) w'.
Proof.
  intros Hplain Htarget method meta Hcan.
  assert (Hmeta : _django_fsm method = Some meta)
    by (unfold method, meta; simpl; by rewrite Hplain).
  unfold can_proceed in Hcan. rewrite Hmeta in Hcan.
  unfold bind at 1 in Hcan. rewrite has_transition_run in Hcan.
  destruct (state_of w) as [s|e] eqn:Hs; [|done].
  destruct (has_key (transitions meta) s || has_key (transitions meta) "*")
    eqn:Hlegal; [|done].
  assert (Hres : resolve meta s = Some target).
  { unfold resolve, has_key in *.
    destruct (transitions meta !! s) as [t|] eqn:Hexact.
    - f_equal. apply (register_single_target source target conds s).
      unfold resolve. fold meta. by rewrite Hexact.
    - destruct (transitions meta !! "*") as [t|] eqn:Hstar; [|done].
      f_equal. apply (register_single_target source target conds s).
      unfold resolve. fold meta. by rewrite Hexact, Hstar. }
  rewrite (conditions_met_resolved meta a w s target conds) in Hcan;
    [|done|done|done|apply register_conditions].
  unfold try_except_TypeError, bind in Hcan.
  destruct (map_guards conds a w) as [w1 [vs|e]] eqn:Hmap;
    [|destruct e; discriminate Hcan].
  unfold ret in Hcan. injection Hcan as -> Hall.
  pose proof (map_guards_Return_inv conds a w w' vs Hmap) as Hret.
  destruct (map_guards_returns conds a w Hret) as (vs' & Hrun & Hpass).
  rewrite Hrun in Hmap. injection Hmap as <- ->.
  rewrite Hall in Hpass. split; [done|]. split; [done|].
  unfold invoke. rewrite Hmeta. simpl.
  rewrite change_state_legal by (by apply (resolve_legal meta w s target)).
  unfold bind at 1. by rewrite for_conditions_pass.
Qed.

(** [publish] of [BlogPostWithConditions] on a new instance. *)
Lemma X6_can_proceed_true_reaches_body_witness :
  let w := Tests.BlogPostWithConditions.model in
  let conds := [Tests.BlogPostWithConditions.condition_func;
                Tests.BlogPostWithConditions.model_condition] in
  let w' := log_events (map guard_event conds) w in
  can_proceed Tests.BlogPostWithConditions.publish Tests.no_args w
  = (w', Return true)
  /\ forallb (guard_passes (inst w) Tests.no_args) conds = true
  /\ snd (invoke Tests.BlogPostWithConditions.publish Tests.no_args w)
     = Return PyNone.
Proof.
  intros w conds w'.
  assert (Hcan : can_proceed Tests.BlogPostWithConditions.publish
                   Tests.no_args w = (w', Return true))
    by (vm_compute; reflexivity).
  destruct (X6_can_proceed_true_reaches_body Tests.save (Scalar "new")
              "published" false conds (Tests.def_pass "publish")
              Tests.no_args w w' eq_refl eq_refl Hcan)
    as (_ & Hpass & Hrun).
  split; [exact Hcan|]. split; [exact Hpass|].
  unfold Tests.BlogPostWithConditions.publish. fold conds. rewrite Hrun.
  vm_compute. reflexivity.
Defined.

(** ** Properties of the introspection pass *)

Lemma log_events_app es1 es2 w :
  log_events es2 (log_events es1 w) = log_events (es1 ++ es2) w.
Proof. unfold log_events. simpl. by rewrite app_assoc. Qed.

(** What the guards answer depends on the instance, not on the trace. *)
Lemma map_guards_result_inst conds a w1 w2 :
  inst w1 = inst w2 ->
  snd (map_guards conds a w1) = snd (map_guards conds a w2).
Proof.
  revert w1 w2. induction conds as [|g conds IH]; intros w1 w2 Hinst; simpl;
    [done|].
  unfold bind at 1 3, call_guard. rewrite Hinst.
  destruct (guard_fn g (inst w2) a) as [v|e]; [|done].
  unfold bind.
  specialize (IH (log_event (EvGuard (guard_name g)) w1)
                (log_event (EvGuard (guard_name g)) w2) Hinst).
  destruct (map_guards conds a (log_event (EvGuard (guard_name g)) w1))
    as [w1' [vs1|e1]];
    destruct (map_guards conds a (log_event (EvGuard (guard_name g)) w2))
    as [w2' [vs2|e2]]; simpl in *; congruence.
Qed.

Lemma state_of_inst w1 w2 : inst w1 = inst w2 -> state_of w1 = state_of w2.
Proof.
  intros Hinst.
  unfold state_of, current_state, bind, read_instance, lift, getattr.
  rewrite Hinst.
  destruct (_get_state_field (inst w2)) as [field|e]; simpl; [|done].
  unfold bind, read_instance. rewrite Hinst.
  destruct (attrs (inst w2) !! name field); done.
Qed.

Lemma conditions_met_unfold meta a w :
  conditions_met meta a w
  = match state_of w with
    | Raise e => (w, Raise e)
    | Return s =>
        match next_target meta s with
        | Raise e => (w, Raise e)
        | Return t =>
            match conditions meta !! t with
            | None => (w, Raise (KeyError t))
            | Some guards =>
                try_except_TypeError
                  (let* vs := map_guards guards a in ret (forallb truthy vs))
                  (ret false) w
            end
        end
    end.
Proof.
  unfold conditions_met. unfold bind at 1. rewrite current_state_pure.
  destruct (state_of w) as [s|e]; [|done].
  assert (Hnext :
    (if has_key (transitions meta) s
     then let* t0 := getitem (transitions meta) s in
          if truthy (PyStr t0) then ret t0 else getitem (transitions meta) "*"
     else getitem (transitions meta) "*") w = (w, next_target meta s)).
  { unfold has_key, getitem, bind, next_target.
    destruct (transitions meta !! s) as [t0|].
    - unfold ret at 1. destruct (truthy (PyStr t0)); [done|].
      by destruct (transitions meta !! "*").
    - by destruct (transitions meta !! "*"). }
  unfold bind at 1. rewrite Hnext.
  destruct (next_target meta s) as [t|e]; [|done].
  unfold try_except_TypeError, bind at 1, getitem.
  by destruct (conditions meta !! t).
Qed.

Lemma conditions_met_result_inst meta a w1 w2 :
  inst w1 = inst w2 ->
  snd (conditions_met meta a w1) = snd (conditions_met meta a w2).
Proof.
  intros Hinst. rewrite !conditions_met_unfold.
  rewrite (state_of_inst w1 w2 Hinst).
  destruct (state_of w2) as [s|e]; [|done].
  destruct (next_target meta s) as [t|e]; [|done].
  destruct (conditions meta !! t) as [guards|]; [|done].
  unfold try_except_TypeError, bind.
  pose proof (map_guards_result_inst guards a w1 w2 Hinst) as Hmap.
  destruct (map_guards guards a w1) as [w1' [vs1|e1]];
    destruct (map_guards guards a w2) as [w2' [vs2|e2]]; simpl in *;
    try congruence.
  injection Hmap as ->. by destruct e2.
Qed.

Lemma conditions_met_inst meta a w :
  inst (fst (conditions_met meta a w)) = inst w.
Proof. destruct (conditions_met_trace meta a w) as [gs ->]. done. Qed.

(** The candidates kept by the loop are the candidates whose guards are
    met. *)
Lemma filter_actions_elem candidates a w w' l x :
  filter_actions candidates a w = (w', Return l) ->
  x ∈ l <->
  exists action target meta,
    x = (action, target)
    /\ (action, target) ∈ candidates
    /\ _django_fsm action = Some meta
    /\ snd (conditions_met meta a w) = Return true.
Proof.
  revert w w' l. induction candidates as [|[action target] rest IH];
    intros w w' l Hrun; simpl in Hrun.
  - unfold ret in Hrun. injection Hrun as <- <-. split.
    + intros H. by apply elem_of_nil in H.
    + intros (? & ? & ? & _ & H & _). by apply elem_of_nil in H.
  - unfold bind at 1 in Hrun.
    destruct (_django_fsm action) as [meta|] eqn:Hmeta; [|done].
    destruct (conditions_met meta a w) as [w1 [met|e]] eqn:Hmet; [|done].
    unfold bind in Hrun.
    destruct (filter_actions rest a w1) as [w2 [states|e]] eqn:Hrest; [|done].
    unfold ret in Hrun. injection Hrun as <- <-.
    assert (Hinst : inst w1 = inst w).
    { pose proof (conditions_met_inst meta a w) as H. by rewrite Hmet in H. }
    assert (Hsame : forall m, snd (conditions_met m a w1)
                              = snd (conditions_met m a w))
      by (intros m; by apply conditions_met_result_inst).
    specialize (IH w1 w2 states Hrest).
    assert (Hhead : snd (conditions_met meta a w) = Return met)
      by (by rewrite Hmet).
    split.
    + intros Hx.
      assert (Hcase : (met = true /\ x = (action, target)) \/ x ∈ states).
      { destruct met; [|by right].
        apply elem_of_cons in Hx as [->|Hx]; [by left|by right]. }
      destruct Hcase as [[-> ->]|Hx'].
      * exists action, target, meta. repeat split; try done.
        apply elem_of_cons. by left.
      * apply IH in Hx' as (f & t & m & -> & Hin & Hm & Hc).
        exists f, t, m. repeat split; try done.
        -- apply elem_of_cons. by right.
        -- by rewrite <- Hsame.
    + intros (f & t & m & -> & Hin & Hm & Hc).
      apply elem_of_cons in Hin as [Heq|Hin].
      * injection Heq as -> ->. rewrite Hmeta in Hm. injection Hm as <-.
        rewrite Hhead in Hc. injection Hc as ->.
        apply elem_of_cons. by left.
      * assert (Hx : (f, t) ∈ states).
        { apply IH. exists f, t, m. repeat split; try done.
          by rewrite Hsame. }
        destruct met; [|done]. apply elem_of_cons. by right.
Qed.

Lemma append_action_lookup src x sa k :
  default [] (append_action src x sa !! k)
  = if bool_decide (k = src) then default [] (sa !! k) ++ [x]
    else default [] (sa !! k).
Proof.
  unfold append_action. destruct (decide (k = src)) as [->|Hne].
  - by rewrite lookup_insert_eq, bool_decide_eq_true_2.
  - rewrite lookup_insert_ne by done. by rewrite bool_decide_eq_false_2.
Qed.

(** Filing the transitions of one method: under each key the old candidates,
    then the method once for every pair of that key. *)
Lemma file_transitions_elem f pairs sa k x :
  x ∈ default []
        (fold_left (fun sa st => append_action (fst st) (f, snd st) sa)
           pairs sa !! k)
  <-> x ∈ default [] (sa !! k) \/ exists t, (k, t) ∈ pairs /\ x = (f, t).
Proof.
  revert sa. induction pairs as [|[src t] pairs IH]; intros sa; simpl.
  - split; [by left|]. intros [H|(t & H & _)]; [done|].
    by apply elem_of_nil in H.
  - rewrite IH, append_action_lookup. split.
    + intros [H|(t' & Hin & ->)].
      * destruct (decide (k = src)) as [->|Hne].
        -- rewrite bool_decide_eq_true_2 in H by done.
           apply elem_of_app in H as [H|H]; [by left|].
           apply list_elem_of_singleton in H. right. exists t.
           split; [|done]. apply elem_of_cons. by left.
        -- rewrite bool_decide_eq_false_2 in H by done. by left.
      * right. exists t'. split; [|done]. apply elem_of_cons. by right.
    + intros [H|(t' & Hin & ->)].
      * left. destruct (bool_decide (k = src)); [|done].
        apply elem_of_app. by left.
      * apply elem_of_cons in Hin as [Heq|Hin].
        -- injection Heq as -> ->. left.
           rewrite bool_decide_eq_true_2 by done.
           apply elem_of_app. right. by apply list_elem_of_singleton.
        -- right. by exists t'.
Qed.

(** Every candidate of the index was filed for a method that [dir] gave, under
    a source of that method's registry, with the target of that source. *)
Lemma build_state_actions_sound (known : FuncObj -> Prop) names attr_obj sa sa' :
  (forall n f, (n, Some (Callable f)) ∈ names -> known f) ->
  (forall f, attr_obj = Some (Callable f) -> known f) ->
  (forall k f t, (f, t) ∈ default [] (sa !! k) ->
     known f /\ exists meta, _django_fsm f = Some meta
                             /\ transitions meta !! k = Some t) ->
  build_state_actions names attr_obj sa = Return sa' ->
  forall k f t, (f, t) ∈ default [] (sa' !! k) ->
    known f /\ exists meta, _django_fsm f = Some meta
                            /\ transitions meta !! k = Some t.
Proof.
  revert attr_obj sa. induction names as [|[n got] names IH];
    intros attr_obj sa Hnames Hattr Hsa Hrun; simpl in Hrun.
  - by injection Hrun as <-.
  - remember (match got with Some o => Some o | None => attr_obj end)
      as current eqn:Hc.
    assert (Hcurrent : forall f, current = Some (Callable f) -> known f).
    { intros f Hf. rewrite Hf in Hc. destruct got as [o|].
      - injection Hc as <-. apply (Hnames n). apply elem_of_cons. by left.
      - by apply Hattr. }
    assert (Hrest : forall n' f, (n', Some (Callable f)) ∈ names -> known f).
    { intros n' f Hin. apply (Hnames n'). apply elem_of_cons. by right. }
    clear Hc. destruct current as [[v|f]|]; [| |done].
    + eapply IH; [exact Hrest|exact Hcurrent|exact Hsa|exact Hrun].
    + destruct (_django_fsm f) as [meta|] eqn:Hmeta.
      * eapply IH; [exact Hrest|exact Hcurrent| |exact Hrun].
        intros k f' t' Hin.
        apply file_transitions_elem in Hin as [Hin|(t & Hin & Heq)].
        -- by apply Hsa.
        -- injection Heq as -> ->. split; [by apply Hcurrent|].
           exists meta. split; [done|]. by apply elem_of_map_to_list.
      * eapply IH; [exact Hrest|exact Hcurrent|exact Hsa|exact Hrun].
Qed.

(** Once filed, a candidate stays; and every method [dir] gives is filed
    under each source of its registry. *)
Lemma build_state_actions_mono names attr_obj sa sa' k x :
  build_state_actions names attr_obj sa = Return sa' ->
  x ∈ default [] (sa !! k) ->
  x ∈ default [] (sa' !! k).
Proof.
  revert attr_obj sa. induction names as [|[n got] names IH];
    intros attr_obj sa Hrun Hx; simpl in Hrun.
  - by injection Hrun as <-.
  - destruct (match got with Some o => Some o | None => attr_obj end)
      as [[v|f]|]; [| |done].
    + by apply (IH _ _ Hrun).
    + destruct (_django_fsm f) as [meta|].
      * apply (IH _ _ Hrun). apply file_transitions_elem. by left.
      * by apply (IH _ _ Hrun).
Qed.

Lemma build_state_actions_complete names attr_obj sa sa' n f meta k t :
  build_state_actions names attr_obj sa = Return sa' ->
  (n, Some (Callable f)) ∈ names ->
  _django_fsm f = Some meta ->
  transitions meta !! k = Some t ->
  (f, t) ∈ default [] (sa' !! k).
Proof.
  revert attr_obj sa. induction names as [|[n' got] names IH];
    intros attr_obj sa Hrun Hin Hmeta Ht; simpl in Hrun.
  - by apply elem_of_nil in Hin.
  - apply elem_of_cons in Hin as [Heq|Hin].
    + injection Heq as <- <-. simpl in Hrun. rewrite Hmeta in Hrun.
      apply (build_state_actions_mono _ _ _ _ _ _ Hrun).
      apply file_transitions_elem. right. exists t. split; [|done].
      by apply elem_of_map_to_list.
    + destruct (match got with Some o => Some o | None => attr_obj end)
        as [[v|f']|]; [| |done].
      * by apply (IH _ _ Hrun).
      * destruct (_django_fsm f'); by apply (IH _ _ Hrun).
Qed.

(** X8. Whatever [accessible_states] lists, on a class whose index is not
    yet built, is a method [dir] gave whose registry has an entry for the
    current state itself, with the listed target, and for which
    [can_proceed] answers [True] with the same arguments. *)
Theorem X8_accessible_states_sound
    (cls cls' : Class) (a : Args) (w w' : World)
    (l : list (FuncObj * string)) (action : FuncObj) (target : string) :
  _state_actions cls = None ->
  accessible_states cls a w = (cls', w', Return l) ->
  (action, target) ∈ l ->
  (exists n, (n, Some (Callable action)) ∈ dir cls)
  /\ exists s meta,
       state_of w = Return s
       /\ _django_fsm action = Some meta
       /\ transitions meta !! s = Some target
       /\ snd (can_proceed action a w) = Return true.
Proof.
  intros Hnone Hrun Hin. unfold accessible_states in Hrun.
  rewrite Hnone in Hrun.
  destruct (build_state_actions (dir cls) None ∅) as [sa|e] eqn:Hbuild;
    [|done].
  rewrite current_state_pure in Hrun.
  destruct (state_of w) as [s|e] eqn:Hs; [|done].
  destruct (filter_actions (default [] (sa !! s)) a w) as [w2 r] eqn:Hfilter.
  injection Hrun as _ _ ->.
  apply (filter_actions_elem _ _ _ _ _ _ Hfilter) in Hin
    as (f & t & meta & Heq & Hcand & Hmeta & Hmet).
  injection Heq as -> ->.
  destruct (build_state_actions_sound
              (fun f => exists n, (n, Some (Callable f)) ∈ dir cls)
              (dir cls) None ∅ sa) with (k := s) (f := f) (t := t)
    as (Hknown & meta' & Hmeta' & Hexact); try done.
  { intros n f0 H. by exists n. }
  { intros k f0 t0 H. rewrite lookup_empty in H. by apply elem_of_nil in H. }
  rewrite Hmeta in Hmeta'. injection Hmeta' as <-.
  split; [exact Hknown|]. exists s, meta.
  split; [done|]. split; [done|]. split; [done|].
  unfold can_proceed. rewrite Hmeta. unfold bind.
  rewrite has_transition_run, Hs. unfold has_key. rewrite Hexact. simpl.
  exact Hmet.
Qed.

(** X9. On a class whose index is not yet built, a method [dir] gives whose
    registry has an entry for the current state itself, and whose guards are
    met for the arguments, is listed by [accessible_states], with the target
    of that entry, whenever the pass returns a list. *)
Theorem X9_accessible_states_complete
    (cls cls' : Class) (a : Args) (w w' : World)
    (l : list (FuncObj * string)) (n : string) (action : FuncObj)
    (meta : FSMMeta) (s target : string) :
  _state_actions cls = None ->
  accessible_states cls a w = (cls', w', Return l) ->
  (n, Some (Callable action)) ∈ dir cls ->
  _django_fsm action = Some meta ->
  state_of w = Return s ->
  transitions meta !! s = Some target ->
  snd (conditions_met meta a w) = Return true ->
  (action, target) ∈ l.
Proof.
  intros Hnone Hrun Hdir Hmeta Hs Hexact Hmet.
  unfold accessible_states in Hrun. rewrite Hnone in Hrun.
  destruct (build_state_actions (dir cls) None ∅) as [sa|e] eqn:Hbuild;
    [|done].
  rewrite current_state_pure, Hs in Hrun.
  destruct (filter_actions (default [] (sa !! s)) a w) as [w2 r] eqn:Hfilter.
  injection Hrun as _ _ ->.
  apply (filter_actions_elem _ _ _ _ _ _ Hfilter).
  exists action, target, meta. split; [done|]. split; [|done].
  by apply (build_state_actions_complete (dir cls) None ∅ sa n action meta).
Qed.






(** X11. A name of [dir] whose [getattr] raises [AttributeError] is handled
    as a second occurrence of the attribute listed before it: the index gets
    what it would get with that attribute under both names, so a transition
    method can be filed twice. If the very first name is such a name, the
    pass ends with [UnboundLocalError]. *)
Theorem X11_inaccessible_attribute_repeats_previous
    (pre : list (string * option AttrObj)) (n1 n2 : string) (o : AttrObj)
    (rest : list (string * option AttrObj)) (attr_obj : option AttrObj)
    (sa : gmap string (list (FuncObj * string))) :
  build_state_actions (pre ++ (n1, Some o) :: (n2, None) :: rest) attr_obj sa
  = build_state_actions (pre ++ (n1, Some o) :: (n2, Some o) :: rest)
      attr_obj sa
  /\ build_state_actions ((n2, None) :: rest) None sa
     = Raise (UnboundLocalError "attr_obj").
Proof.
  split; [|reflexivity].
  revert attr_obj sa. induction pre as [|[n got] pre IH]; intros attr_obj sa.
  - simpl. destruct o as [v|f]; [done|]. by destruct (_django_fsm f).
  - simpl. destruct (match got with Some o0 => Some o0 | None => attr_obj end)
      as [[v|f]|]; [by apply IH| |done].
    destruct (_django_fsm f); by apply IH.
Qed.

(** [accessible_states(model, 'bar')] of tests.py on a published post lists
    [approve]. *)
Lemma X8_accessible_states_sound_witness :
  let cls := Tests.BlogPostWithConditions.cls in
  let w := Tests.BlogPostWithConditions.published in
  let a := Tests.positional [PyStr "bar"] in
  let l := [(Tests.BlogPostWithConditions.approve, "approved");
            (Tests.BlogPostWithConditions.bless, "holy")] in
  snd (accessible_states cls a w) = Return l
  /\ (exists n,
         (n, Some (Callable Tests.BlogPostWithConditions.approve)) ∈ dir cls)
  /\ snd (can_proceed Tests.BlogPostWithConditions.approve a w) = Return true.
Proof.
  intros cls w a l.
  assert (Hrun : accessible_states cls a w
                 = (fst (fst (accessible_states cls a w)),
                    snd (fst (accessible_states cls a w)), Return l))
    by (vm_compute; reflexivity).
  assert (Hin : (Tests.BlogPostWithConditions.approve, "approved") ∈ l)
    by (apply elem_of_cons; by left).
  destruct (X8_accessible_states_sound cls _ a w _ l
              Tests.BlogPostWithConditions.approve "approved"
              eq_refl Hrun Hin)
    as (Hdir & s & meta & _ & Hmeta & _ & Hcan).
  split; [by rewrite Hrun|]. split; [exact Hdir|exact Hcan].
Defined.

(** [mark_spam] of tests.py on a new [BlogPostWithConditions]. *)
Lemma X9_accessible_states_complete_witness :
  let cls := Tests.BlogPostWithConditions.cls in
  let w := Tests.BlogPostWithConditions.model in
  exists l,
    snd (accessible_states cls Tests.no_args w) = Return l
    /\ (Tests.BlogPostWithConditions.mark_spam, "spam") ∈ l.
Proof.
  intros cls w.
  pose (l := [(Tests.BlogPostWithConditions.mark_spam, "spam");
              (Tests.BlogPostWithConditions.publish, "published")]).
  assert (Hrun : accessible_states cls Tests.no_args w
                 = (fst (fst (accessible_states cls Tests.no_args w)),
                    snd (fst (accessible_states cls Tests.no_args w)),
                    Return l))
    by (vm_compute; reflexivity).
  assert (Hdir : ("mark_spam",
                  Some (Callable Tests.BlogPostWithConditions.mark_spam))
                 ∈ dir cls).
  { simpl. do 5 (apply elem_of_cons; right). apply elem_of_cons. by left. }
  exists l. split; [by rewrite Hrun|].
  apply (X9_accessible_states_complete cls _ Tests.no_args w _ l "mark_spam"
           Tests.BlogPostWithConditions.mark_spam
           (Tests.meta_of Tests.BlogPostWithConditions.mark_spam)
           "new" "spam" eq_refl Hrun Hdir eq_refl);
    vm_compute; reflexivity.
Defined.

(** ** Further properties of the dispatch *)

(** X12. When the body returns having moved the instance to a state for which
    the registry has neither an entry nor a wildcard entry, the advance step
    raises [KeyError] for the key ['*']: the caller gets that exception, the
    instance stays as the body left it and the persistence hook is not
    called. *)
Theorem X12_advance_without_target
    (instance_save : M PyVal) (func : FuncObj) (conds : list Guard)
    (save : bool) (meta : FSMMeta) (a : Args) (w w1 : World) (v : PyVal)
    (s1 : string) :
  snd (has_transition meta w) = Return true ->
  forallb (guard_passes (inst w) a) conds = true ->
  call func meta a (log_events (map guard_event conds) w) = (w1, Return v) ->
  state_of w1 = Return s1 ->
  resolve meta s1 = None ->
  _change_state instance_save func conds save meta a w
  = (w1, Raise (KeyError "*")).
Proof.
  intros Hlegal Hpass Hbody Hs1 Hnone.
  rewrite change_state_legal by exact Hlegal.
  unfold bind at 1. rewrite for_conditions_pass by exact Hpass.
  unfold bind at 1. rewrite Hbody. unfold bind at 1.
  by rewrite (to_next_state_KeyError meta w1 s1 Hs1 Hnone).
Qed.

(** [wander] on a new instance. *)
Lemma X12_advance_without_target_witness :
  let w := Tests.Probe.model in
  let meta := Tests.meta_of Tests.Probe.wander in
  let w1 := fst (call Tests.Probe.wander_body meta Tests.no_args w) in
  state_of w1 = Return "lost"
  /\ resolve meta "lost" = None
  /\ invoke Tests.Probe.wander Tests.no_args w = (w1, Raise (KeyError "*")).
Proof.
  intros w meta w1.
  assert (H1 : state_of w1 = Return "lost") by (vm_compute; reflexivity).
  assert (H2 : resolve meta "lost" = None) by (vm_compute; reflexivity).
  refine (conj H1 (conj H2 _)).
  apply (X12_advance_without_target Tests.save Tests.Probe.wander_body []
           false meta Tests.no_args w w1 PyNone "lost");
    first [assumption | vm_compute; reflexivity].
Defined.

(** X13. The persistence hook runs after the advance and only when the
    decorator was given [save=True]: it is called on an instance whose state
    attribute already holds the target, its exception reaches the caller with
    the state advanced, and with [save=False] the outcome does not depend on
    the hook. *)
Theorem X13_hook_runs_after_advance
    (instance_save : M PyVal) (func : FuncObj) (conds : list Guard)
    (meta : FSMMeta) (a : Args) (w w1 : World) (s t : string) (v : PyVal) :
  state_of w = Return s ->
  resolve meta s = Some t ->
  forallb (guard_passes (inst w) a) conds = true ->
  call func meta a (log_events (map guard_event conds) w) = (w1, Return v) ->
  state_of w1 = Return s ->
  let w2 := fst (to_next_state meta w1) in
  state_of w2 = Return t
  /\ _change_state instance_save func conds true meta a w
     = (fst (instance_save (log_event EvSave w2)),
        match snd (instance_save (log_event EvSave w2)) with
        | Return _ => Return PyNone
        | Raise e => Raise e
        end)
  /\ _change_state instance_save func conds false meta a w
     = (w2, Return PyNone).
Proof.
  intros Hs Ht Hpass Hbody Hs1 w2.
  destruct (change_state_accept instance_save func conds true meta a
              w s t w1 v Hs Ht Hpass Hbody Hs1) as (w2' & Hadv & Hs2 & Hrun).
  destruct (change_state_accept instance_save func conds false meta a
              w s t w1 v Hs Ht Hpass Hbody Hs1) as (w2'' & Hadv' & _ & Hrun').
  unfold w2. rewrite Hadv in *. injection Hadv' as <-. simpl.
  split; [exact Hs2|]. split.
  - rewrite Hrun. unfold bind, call_save.
    by destruct (instance_save (log_event EvSave w2')) as [w3 [x|e]].
  - by rewrite Hrun'.
Qed.

(** [archive], declared with [save=True], called on a new instance with a
    hook that fails: the exception comes out and the state is ['archived']. *)
Lemma X13_hook_runs_after_advance_witness :
  let w := Tests.Probe.model in
  let meta := Tests.meta_of Tests.Probe.archive in
  let out :=
    _change_state Tests.Probe.failing_save (Tests.def_pass "archive") [] true
      meta Tests.no_args w in
  state_of w = Return "new"
  /\ snd out = Raise (Exception "database is down")
  /\ state_of (fst out) = Return "archived".
Proof.
  intros w meta out.
  assert (H1 : state_of w = Return "new") by (vm_compute; reflexivity).
  destruct (X13_hook_runs_after_advance Tests.Probe.failing_save
              (Tests.def_pass "archive") [] meta Tests.no_args w
              (log_event (EvCall "archive") w) "new" "archived" PyNone
              H1 eq_refl eq_refl eq_refl eq_refl)
    as (Hadv & Hrun & _).
  split; [exact H1|]. unfold out. rewrite Hrun. simpl.
  split; [reflexivity|].
  rewrite <- Hadv. apply state_of_inst. reflexivity.
Defined.

(** X14. In a call of the wrapper, a guard that raises, the guards before it
    having passed, ends the call with its exception, whatever its class: no
    later guard and no body is called and the instance is as before. *)
Theorem X14_guard_exception_in_call
    (instance_save : M PyVal) (func : FuncObj) (save : bool) (meta : FSMMeta)
    (a : Args) (w : World) (s t : string)
    (pre : list Guard) (g : Guard) (post : list Guard) (e : exn) :
  state_of w = Return s ->
  resolve meta s = Some t ->
  forallb (guard_passes (inst w) a) pre = true ->
  guard_fn g (inst w) a = Raise e ->
  _change_state instance_save func (pre ++ g :: post) save meta a w
  = (log_events (map guard_event (pre ++ [g])) w, Raise e).
Proof.
  intros Hs Ht Hpre Hg.
  rewrite (change_state_stop instance_save func (pre ++ g :: post) save
             meta a w pre g post); try done.
  - by rewrite Hg.
  - by apply (resolve_legal meta w s t).
  - unfold guard_passes. by rewrite Hg.
Qed.

(** [approve] of tests.py called without the argument its guard
    [variable_condition] needs: [condition_func] passes, then the guard
    raises. *)
Lemma X14_guard_exception_in_call_witness :
  let w := Tests.BlogPostWithConditions.published in
  let meta := Tests.meta_of Tests.BlogPostWithConditions.approve in
  _change_state Tests.save (Tests.def_pass_any "approve")
    ([Tests.BlogPostWithConditions.condition_func]
     ++ Tests.BlogPostWithConditions.variable_condition :: [])
    false meta Tests.no_args w
  = (log_events
       (map guard_event
          ([Tests.BlogPostWithConditions.condition_func]
           ++ [Tests.BlogPostWithConditions.variable_condition])) w,
     Raise (TypeError "variable_condition() takes at least 2 arguments")).
Proof.
  intros w meta.
  apply (X14_guard_exception_in_call Tests.save
           (Tests.def_pass_any "approve") false meta Tests.no_args w
           "published" "approved");
    first [reflexivity | vm_compute; reflexivity].
Defined.

(** X15. The advance step writes one attribute, the one named by the state
    field: it holds the resolved target afterwards, every other attribute,
    the declared fields and the trace are as before. Any target is written as
    it is. *)
Theorem X15_advance_writes_state_field_only
    (meta : FSMMeta) (w : World) (s t : string) :
  state_of w = Return s ->
  resolve meta s = Some t ->
  exists field,
    _get_state_field (inst w) = Return field
    /\ to_next_state meta w
       = ({| inst := {| _meta_fields := _meta_fields (inst w);
                        attrs := <[name field := t]> (attrs (inst w)) |};
             log := log w |}, Return tt)
    /\ (forall k, k <> name field ->
          attrs (inst (fst (to_next_state meta w))) !! k
          = attrs (inst w) !! k).
Proof.
  intros Hs Ht. destruct (state_of_Return w s Hs) as (field & Hf & Hv).
  exists field. split; [exact Hf|].
  assert (Hrun : to_next_state meta w
    = ({| inst := {| _meta_fields := _meta_fields (inst w);
                     attrs := <[name field := t]> (attrs (inst w)) |};
          log := log w |}, Return tt)).
  { unfold to_next_state, bind, read_instance, lift. rewrite Hf. simpl.
    unfold getattr, bind, read_instance. rewrite Hv. simpl.
    unfold resolve in Ht. unfold getitem.
    assert (Hnext :
      (match transitions meta !! s with
       | Some t0 => ret t0
       | None => match transitions meta !! "*" with
                 | Some v => ret v
                 | None => raise (KeyError "*")
                 end
       end) w = (w, Return t)).
    { destruct (transitions meta !! s); [by inversion Ht|]. by rewrite Ht. }
    rewrite Hnext. reflexivity. }
  split; [exact Hrun|].
  intros k Hk. rewrite Hrun. simpl. by rewrite lookup_insert_ne.
Qed.

(** [publish] of [Document], whose state field is called [status], on an
    instance that also carries a [title]. *)
Lemma X15_advance_writes_state_field_only_witness :
  let w :=
    {| inst := {| _meta_fields := Tests.Document.fields;
                  attrs := <["title" := "draft"]> {["status" := "new"]} |};
       log := [] |} in
  let w' := fst (to_next_state (Tests.meta_of Tests.Document.publish) w) in
  attrs (inst w') !! "status" = Some "published"
  /\ attrs (inst w') !! "title" = Some "draft".
Proof.
  intros w w'.
  destruct (X15_advance_writes_state_field_only
              (Tests.meta_of Tests.Document.publish) w "new" "published"
              eq_refl eq_refl)
    as (field & Hfield & Hrun & Hframe).
  injection Hfield as <-.
  split.
  - unfold w'. rewrite Hrun. simpl. vm_compute. reflexivity.
  - unfold w'. rewrite Hframe; [vm_compute; reflexivity|]. simpl. discriminate.
Defined.

(** X16. A registration writes the target under every source it names and
    the guard list under the target, and leaves every other entry of the
    registry as it was: a source registered before gets the new target (the
    last registration wins), and the guard list of a target that is no longer
    referenced stays filed. *)
Theorem X16_registration_last_write_wins
    (source : Source) (target : string) (conds : list Guard)
    (fsm : option FSMMeta) (k : string) :
  let old := default FSMMeta_init fsm in
  let new := register source target conds fsm in
  (k ∈ sources_of source -> transitions new !! k = Some target)
  /\ (k ∉ sources_of source -> transitions new !! k = transitions old !! k)
  /\ conditions new !! target = Some conds
  /\ (k <> target -> conditions new !! k = conditions old !! k).
Proof.
  intros old new. unfold new, old.
  split; [|split; [|split]].
  - intros Hin. rewrite register_transitions.
    by rewrite bool_decide_eq_true_2.
  - intros Hnin. rewrite register_transitions.
    by rewrite bool_decide_eq_false_2.
  - apply register_conditions.
  - intros Hne. rewrite register_conditions_lookup.
    by rewrite bool_decide_eq_false_2.
Qed.

(** Registering ['new'] again with another target on the registry of
    [publish]. *)
Lemma X16_registration_last_write_wins_witness :
  let old := Tests.meta_of Tests.BlogPostWithConditions.publish in
  let new := register (Scalar "new") "archived" [] (Some old) in
  transitions old !! "new" = Some "published"
  /\ transitions new !! "new" = Some "archived"
  /\ conditions new !! "archived" = Some []
  /\ conditions new !! "published" = conditions old !! "published".
Proof.
  intros old new.
  destruct (X16_registration_last_write_wins (Scalar "new") "archived" []
              (Some old) "new") as (Hnew & _ & Hconds & _).
  destruct (X16_registration_last_write_wins (Scalar "new") "archived" []
              (Some old) "published") as (_ & _ & _ & Hkeep).
  split; [vm_compute; reflexivity|].
  split; [apply Hnew; simpl; apply elem_of_cons; by left|].
  split; [exact Hconds|]. apply Hkeep. discriminate.
Defined.

Lemma first_failing_guard instance a conds :
  forallb (guard_passes instance a) conds = false ->
  exists pre g post,
    conds = pre ++ g :: post
    /\ forallb (guard_passes instance a) pre = true
    /\ guard_passes instance a g = false.
Proof.
  induction conds as [|c conds IH]; simpl; [done|].
  destruct (guard_passes instance a c) eqn:Hc; simpl.
  - intros H. destruct (IH H) as (pre & g & post & -> & Hpre & Hg).
    exists (c :: pre), g, post. simpl. by rewrite Hc.
  - intros _. by exists [], c, conds.
Qed.

(** X17. For a method decorated once whose guards answer without raising, an
    answer [False] of [can_proceed] means the call is turned away before the
    body: it raises the illegal-transition error when the state has no entry
    and no wildcard entry, and returns [False] otherwise, with nothing but
    guard calls in between. *)
Theorem X17_can_proceed_false_call_rejected
    (instance_save : M PyVal) (source : Source) (target : string)
    (save : bool) (conds : list Guard) (func : FuncObj) (a : Args)
    (w w' : World) (s : string) :
  _django_fsm func = None ->
  truthy (PyStr target) = true ->
  state_of w = Return s ->
  forallb (guard_returns (inst w) a) conds = true ->
  let method := inner_transition instance_save source target save conds func in
  let meta := register source target conds None in
  can_proceed method a w = (w', Return false) ->
  (resolve meta s = None
   /\ invoke method a w
      = (w, Raise (NotImplementedError
                     (illegal_message s (func_name func)))))
  \/ (resolve meta s = Some target
      /\ snd (invoke method a w) = Return (PyBool false)
      /\ exists gs,
           fst (invoke method a w) = log_events (map guard_event gs) w).
Proof.
  intros Hplain Htarget Hs Hret method meta Hcan.
  assert (Hmeta : _django_fsm method = Some meta)
    by (unfold method, meta; simpl; by rewrite Hplain).
  assert (Hinvoke : invoke method a w
                    = _change_state instance_save func conds save meta a w).
  { unfold invoke. by rewrite Hmeta. }
  destruct (resolve meta s) as [t|] eqn:Hres.
  - right.
    assert (t = target) as ->
      by (by apply (register_single_target source target conds s)).
    split; [done|].
    rewrite (can_proceed_returning_guards method meta a w s target
               conds) in Hcan; try done; [|apply register_conditions].
    injection Hcan as _ Hfail.
    destruct (first_failing_guard (inst w) a conds Hfail)
      as (pre & g & post & Hsplit & Hpre & Hg).
    rewrite Hinvoke.
    rewrite (change_state_stop instance_save func conds save meta a w
               pre g post); try done;
      [|by apply (resolve_legal meta w s target)].
    simpl. split; [|by eexists].
    assert (Hgret : guard_returns (inst w) a g = true).
    { rewrite Hsplit, forallb_app in Hret. simpl in Hret.
      apply andb_true_iff in Hret as [_ Hret].
      by apply andb_true_iff in Hret as [Hret _]. }
    unfold guard_returns in Hgret.
    by destruct (guard_fn g (inst w) a).
  - left. split; [done|]. rewrite Hinvoke.
    unfold resolve in Hres.
    destruct (transitions meta !! s) eqn:Hexact; [done|].
    by apply change_state_illegal.
Qed.

(** [destroy] of tests.py on a published post: [can_proceed] is [False] and
    the call returns [False]. *)
Lemma X17_can_proceed_false_call_rejected_witness :
  let w := Tests.BlogPostWithConditions.published in
  let conds := [Tests.BlogPostWithConditions.condition_func;
                Tests.BlogPostWithConditions.unmet_condition] in
  snd (can_proceed Tests.BlogPostWithConditions.destroy Tests.no_args w)
  = Return false
  /\ snd (invoke Tests.BlogPostWithConditions.destroy Tests.no_args w)
     = Return (PyBool false).
Proof.
  intros w conds.
  assert (Hcan : can_proceed Tests.BlogPostWithConditions.destroy
                   Tests.no_args w
                 = (log_events (map guard_event conds) w, Return false))
    by (vm_compute; reflexivity).
  split; [by rewrite Hcan|].
  destruct (X17_can_proceed_false_call_rejected Tests.save
              (Scalar "published") "destroyed" false conds
              (Tests.def_pass "destroy") Tests.no_args w _ "published"
              eq_refl eq_refl eq_refl eq_refl Hcan)
    as [[Hnone _]|(_ & Hret & _)].
  - vm_compute in Hnone. discriminate Hnone.
  - exact Hret.
Defined.

(** ** The binding of the methods the introspection pass returns *)


